(** * FXD agent context manager: a shallow embedding and its properties

    Source: [agent-coordinator/agent-context-manager.py], class
    [AgentContextManager].

    Modelling choices.
    - Python [int] is [Z]; [str] is [string], a character being a code point
      below 256.
    - [self.agents] and [self.annotations] are finite maps (dict).
    - The files the manager reads and writes are part of the state: the
      context files, keyed by their path below the context directory, the
      annotations file, the source files and the task files.  Which file the
      path [contexts/<name>.json] designates, whether it can be opened for
      writing, and the exception [open] raises when it cannot, is the
      platform's answer ([Platform]); opening a context file for writing can
      fail.  A context file that exists holds a record as [_save_context]
      writes it; [json.dump] followed by [json.load] is the identity on the
      records below.
    - [datetime.now().isoformat()] is an argument [now] of the operation that
      reads the clock.
    - [print] appends an event to [stdout].
    - An operation is a function from the state to an outcome (a value or a
      raised exception) and the state it leaves behind. *)

From Stdlib Require Import ZArith String Ascii List Lia.
From stdpp Require Import base option list gmap strings pretty.
From Equations Require Import Equations.

Local Open Scope string_scope.
Local Open Scope Z_scope.

(** ** Data model *)

(** A message is the dict built by [add_message].  The two keys the code
    reads with [.get(key, default)] are optional. *)
Record Message := {
  msg_role : string;
  msg_content : string;
  msg_timestamp : option string;
  msg_tokens : option Z
}.

(** [removed.get('tokens', 0)] *)
Definition get_tokens (m : Message) : Z := default 0 (msg_tokens m).

(** [msg.get('timestamp', '')] *)
Definition get_timestamp (m : Message) : string := default "" (msg_timestamp m).

Record AgentContext := {
  agent_name : string;
  timestamp : string;
  task_file : string;
  current_tokens : Z;
  max_tokens : Z;
  messages : list Message
}.

Record CodeAnnotation := {
  ann_file_path : string;
  line_number : nat;
  ann_agent_name : string;
  ann_timestamp : string;
  task_ref : string;
  notes : string
}.

(** What a source or task file yields when it is opened and read as UTF-8.
    A path bound to no file cannot be opened. *)
Inductive file :=
| Text (content : string)
    (** decodes; [content] is the decoded text before newline translation *)
| Undecodable (yielded : list string)
    (** holds an invalid byte sequence: iterating the file hands out
        [yielded] lines and then raises, reading it whole raises *).

Inductive exn :=
| ValueError (msg : string)
| KeyError (key : string)
| IndexError
| AttributeError
| FileNotFoundError (path : string)
| UnicodeDecodeError.

(** What the manager prints. *)
Inductive output :=
| Registered (agent : string)
| Trimming (agent : string) (tokens : Z)
| Trimmed (agent : string) (tokens : Z)
| Scanning
| ErrorScanning (path : string) (e : exn)
| Found (n : nat).

(** What the platform decides when a context is saved or loaded: the file
    that [self.context_dir / f"{agent_name}.json"] designates (two names
    can designate one file), whether [open(file, 'w')] succeeds on it (it
    fails, for one, when the directory of the file does not exist), and the
    exception it raises when it fails.  The answers do not change during a
    run: the manager creates no directory below the context directory. *)
Record Platform := {
  context_path : string -> string;
  writable : string -> bool;
  write_error : string -> exn
}.

Record World := {
  platform : Platform;
  agents : gmap string AgentContext;
  annotations : gmap string (list CodeAnnotation);
  context_files : gmap string AgentContext;
  annotations_file : option (gmap string (list CodeAnnotation));
  source_files : gmap string file;
  task_files : gmap string file;
  stdout : list output
}.

(** ** Operations as state transformers that may raise *)

Inductive outcome (A : Type) :=
| Return (a : A)
| Raise (e : exn).
Arguments Return {A} a.
Arguments Raise {A} e.

Definition M (A : Type) : Type := World -> outcome A * World.

Definition ret {A} (a : A) : M A := fun w => (Return a, w).
Definition raise {A} (e : exn) : M A := fun w => (Raise e, w).
Definition bind {A B} (m : M A) (k : A -> M B) : M B :=
  fun w => match m w with
           | (Return a, w') => k a w'
           | (Raise e, w') => (Raise e, w')
           end.
Definition get : M World := fun w => (Return w, w).

Notation "x <- m ;; k" := (bind m (fun x => k))
  (at level 100, m at next level, k at level 200, right associativity).
Notation "m ;;; k" := (bind m (fun _ => k))
  (at level 100, k at level 200, right associativity).

Definition set_agent (name : string) (context : AgentContext) : M unit :=
  fun w => (Return tt,
            {| platform := platform w;
               agents := <[name := context]> (agents w);
               annotations := annotations w;
               context_files := context_files w;
               annotations_file := annotations_file w;
               source_files := source_files w;
               task_files := task_files w;
               stdout := stdout w |}).

Definition set_annotations (a : gmap string (list CodeAnnotation)) : M unit :=
  fun w => (Return tt,
            {| platform := platform w;
               agents := agents w;
               annotations := a;
               context_files := context_files w;
               annotations_file := annotations_file w;
               source_files := source_files w;
               task_files := task_files w;
               stdout := stdout w |}).

Definition write_context_file (file : string) (context : AgentContext) : M unit :=
  fun w => (Return tt,
            {| platform := platform w;
               agents := agents w;
               annotations := annotations w;
               context_files := <[file := context]> (context_files w);
               annotations_file := annotations_file w;
               source_files := source_files w;
               task_files := task_files w;
               stdout := stdout w |}).

Definition write_annotations_file (a : gmap string (list CodeAnnotation)) : M unit :=
  fun w => (Return tt,
            {| platform := platform w;
               agents := agents w;
               annotations := annotations w;
               context_files := context_files w;
               annotations_file := Some a;
               source_files := source_files w;
               task_files := task_files w;
               stdout := stdout w |}).

Definition print (o : output) : M unit :=
  fun w => (Return tt,
            {| platform := platform w;
               agents := agents w;
               annotations := annotations w;
               context_files := context_files w;
               annotations_file := annotations_file w;
               source_files := source_files w;
               task_files := task_files w;
               stdout := stdout w ++ [o] |}).

(** ** Context store *)

(** [_save_context]: [open(context_file, 'w')] raises when the file cannot
    be opened for writing; otherwise the whole record overwrites the file. *)
Definition _save_context (name : string) (context : AgentContext) : M unit :=
  w <- get ;;
  let context_file := context_path (platform w) name in
  if writable (platform w) context_file
  then write_context_file context_file context
  else raise (write_error (platform w) context_file).

(** [register_agent] *)
Definition register_agent (name task now : string) : M unit :=
  let context := {| agent_name := name; timestamp := now; task_file := task;
                    current_tokens := 0; max_tokens := 200000;
                    messages := [] |} in
  set_agent name context ;;;
  _save_context name context ;;;
  print (Registered name).

(** [list.pop(i)] for [0 <= i]: the element at [i] and the list without it;
    [None] stands for IndexError. *)
Definition list_pop {A} (i : nat) (l : list A) : option (A * list A) :=
  match l !! i with
  | Some x => Some (x, delete i l)
  | None => None
  end.

(** One turn of the [while] body of [_trim_context]. *)
Definition trim_body (context : AgentContext) : AgentContext :=
  match list_pop 1 (messages context) with
  | Some (removed, rest) =>
      {| agent_name := agent_name context; timestamp := timestamp context;
         task_file := task_file context;
         current_tokens := current_tokens context - get_tokens removed;
         max_tokens := max_tokens context;
         messages := rest |}
  | None => context
  end.

(** The guard of the [while] of [_trim_context]. *)
Definition trim_guard (target_tokens : Z) (context : AgentContext) : bool :=
  bool_decide (current_tokens context > target_tokens)
  && bool_decide (1 < length (messages context))%nat.

(** The [while] loop of [_trim_context]. *)
Equations trim_loop (target_tokens : Z) (context : AgentContext) : AgentContext
  by wf (length (messages context)) lt :=
trim_loop target_tokens context
  with Sumbool.sumbool_of_bool (trim_guard target_tokens context) := {
  | left Hguard => trim_loop target_tokens (trim_body context)
  | right _ => context }.
Next Obligation.
  revert Hguard. unfold trim_guard, trim_body, list_pop.
  rewrite andb_true_iff, !bool_decide_eq_true. intros [_ Hlen].
  destruct (messages context) as [|m0 [|m1 rest]]; simpl in *; lia.
Qed.

(** [_trim_context] *)
Definition _trim_context (name : string) : M unit :=
  w <- get ;;
  match agents w !! name with
  | None => raise (KeyError name)
  | Some context =>
      print (Trimming name (current_tokens context)) ;;;
      let target_tokens := max_tokens context - 20000 in
      let context' := trim_loop target_tokens context in
      set_agent name context' ;;;
      print (Trimmed name (current_tokens context')) ;;;
      _save_context name context'
  end.

(** [add_message] *)
Definition add_message (name role content : string) (tokens : Z) (now : string)
  : M unit :=
  w <- get ;;
  match agents w !! name with
  | None => raise (ValueError ("Agent " ++ name ++ " not registered"))
  | Some context =>
      let message := {| msg_role := role; msg_content := content;
                        msg_timestamp := Some now; msg_tokens := Some tokens |} in
      let context1 :=
        {| agent_name := agent_name context; timestamp := timestamp context;
           task_file := task_file context;
           current_tokens := current_tokens context + tokens;
           max_tokens := max_tokens context;
           messages := messages context ++ [message] |} in
      set_agent name context1 ;;;
      (if bool_decide (current_tokens context1 > max_tokens context1)
       then _trim_context name else ret tt) ;;;
      (* [context] is the object [_trim_context] worked on: read it back *)
      w' <- get ;;
      match agents w' !! name with
      | Some context2 => _save_context name context2
      | None => raise (KeyError name)
      end
  end.

(** [load_context] *)
Definition load_context (name : string) : M (option AgentContext) :=
  w <- get ;;
  ret (context_files w !! context_path (platform w) name).

(** [__init__]: the index is read from the annotations file when there is
    one, and the registry starts empty. *)
Definition _load_annotations (w : World) : gmap string (list CodeAnnotation) :=
  default ∅ (annotations_file w).

Definition new_manager (w : World) : World :=
  {| platform := platform w;
     agents := ∅;
     annotations := _load_annotations w;
     context_files := context_files w;
     annotations_file := annotations_file w;
     source_files := source_files w;
     task_files := task_files w;
     stdout := stdout w |}.

(** A caller's use of the context store: a sequence of calls, each run on the
    state the previous one left, whether it returned or raised. *)
Inductive op :=
| Register (name task now : string)
| AddMessage (name role content : string) (tokens : Z) (now : string)
| Trim (name : string).

Definition run_op (o : op) : M unit :=
  match o with
  | Register name task now => register_agent name task now
  | AddMessage name role content tokens now =>
      add_message name role content tokens now
  | Trim name => _trim_context name
  end.

Definition exec (ops : list op) (w : World) : World :=
  fold_left (fun w o => snd (run_op o w)) ops w.

(** Sum of the token costs of a message list. *)
Definition token_sum (ms : list Message) : Z :=
  foldr (fun m acc => get_tokens m + acc) 0 ms.

Definition context_ok (c : AgentContext) : Prop :=
  current_tokens c = token_sum (messages c).

(** The file of an agent and the outcome of saving to it. *)
Definition file_of (w : World) (name : string) : string :=
  context_path (platform w) name.

Definition save_outcome (w : World) (name : string) : outcome unit :=
  if writable (platform w) (file_of w name)
  then Return tt
  else Raise (write_error (platform w) (file_of w name)).

(** The context files after [_save_context name c] on [w]. *)
Definition saved (w : World) (name : string) (c : AgentContext)
  : gmap string AgentContext :=
  if writable (platform w) (file_of w name)
  then <[file_of w name := c]> (context_files w)
  else context_files w.

(** The record [add_message] leaves for a registered agent. *)
Definition appended (c : AgentContext) (role content : string) (tokens : Z)
    (now : string) : AgentContext :=
  {| agent_name := agent_name c; timestamp := timestamp c;
     task_file := task_file c;
     current_tokens := current_tokens c + tokens;
     max_tokens := max_tokens c;
     messages := messages c ++ [{| msg_role := role; msg_content := content;
                                   msg_timestamp := Some now;
                                   msg_tokens := Some tokens |}] |}.

Definition after_add (c : AgentContext) (role content : string) (tokens : Z)
    (now : string) : AgentContext :=
  let c1 := appended c role content tokens now in
  if bool_decide (current_tokens c1 > max_tokens c1)
  then trim_loop (max_tokens c1 - 20000) c1
  else c1.

(** A platform for the examples: a contexts directory with no directory
    inside it.  A leading [./] of a name is dropped, as pathlib does, so
    that [./x] and [x] designate one file; a file whose path still has a
    slash (as [a/b.json]) lies in a directory that does not exist, and
    opening it for writing raises FileNotFoundError. *)
Fixpoint drop_dot_slash (s : string) : string :=
  match s with
  | String "." (String "/" s') => drop_dot_slash s'
  | _ => s
  end.

Fixpoint has_slash (s : string) : bool :=
  match s with
  | EmptyString => false
  | String c s' => Ascii.eqb c "/" || has_slash s'
  end.

Definition flat_platform : Platform :=
  {| context_path := fun name => drop_dot_slash name ++ ".json";
     writable := fun file => negb (has_slash file);
     write_error := FileNotFoundError |}.

(** The state before any run of the manager: no file, nothing printed. *)
Definition empty_world : World :=
  {| platform := flat_platform; agents := ∅; annotations := ∅;
     context_files := ∅; annotations_file := None; source_files := ∅;
     task_files := ∅; stdout := [] |}.

(** [registers name o]: [o] is a call of [register_agent] for [name]. *)
Definition registers (name : string) (o : op) : bool :=
  match o with
  | Register n _ _ => bool_decide (n = name)
  | _ => false
  end.

(** The calls of the worked example: a new agent, then messages of costs
    0, 50000, 80000 and 90000. *)
Definition example_setup : list op :=
  [ Register "agent-1" "task-1.md" "2025-01-01T10:00:00";
    AddMessage "agent-1" "system" "rules" 0 "2025-01-01T10:00:01";
    AddMessage "agent-1" "user" "first" 50000 "2025-01-01T10:00:02";
    AddMessage "agent-1" "assistant" "second" 80000 "2025-01-01T10:00:03" ].

Definition example_last : op :=
  AddMessage "agent-1" "user" "third" 90000 "2025-01-01T10:00:04".

(** A context whose single message is above the budget. *)
Definition over_budget_context : AgentContext :=
  {| agent_name := "agent-2"; timestamp := "2025-01-01T10:00:00";
     task_file := "task-2.md"; current_tokens := 250000;
     max_tokens := 200000;
     messages := [ {| msg_role := "system"; msg_content := "rules";
                      msg_timestamp := Some "2025-01-01T10:00:01";
                      msg_tokens := Some 250000 |} ] |}.

Definition over_budget_world : World :=
  {| platform := flat_platform;
     agents := {[ "agent-2" := over_budget_context ]}; annotations := ∅;
     context_files := {[ "agent-2.json" := over_budget_context ]};
     annotations_file := None; source_files := ∅; task_files := ∅;
     stdout := [] |}.

(** ** Text *)

(** [str.isspace] and the class [\s] on the code points below 256. *)
Definition isspace (c : ascii) : bool :=
  let n := N_of_ascii c in
  ((9 <=? n) && (n <=? 13) || (28 <=? n) && (n <=? 32)
   || (n =? 133) || (n =? 160))%N.

Definition newline : ascii := ascii_of_N 10.
Definition carriage_return : ascii := ascii_of_N 13.

(** The regex classes the patterns use. *)
Definition non_space (c : ascii) : bool := negb (isspace c).          (* \S *)
Definition any_char (c : ascii) : bool := negb (Ascii.eqb c newline). (* .  *)
Definition status_char (c : ascii) : bool :=                          (* [^|\n] *)
  negb (Ascii.eqb c "|"%char) && negb (Ascii.eqb c newline).

(** [sub in s] *)
Fixpoint contains (sub s : string) : bool :=
  String.prefix sub s
  || match s with
     | EmptyString => false
     | String _ s' => contains sub s'
     end.

(** [s[n:]] *)
Fixpoint string_drop (n : nat) (s : string) : string :=
  match n, s with
  | O, _ => s
  | S n', String _ s' => string_drop n' s'
  | S _, EmptyString => EmptyString
  end.

(** [s[:n]] *)
Fixpoint string_take (n : nat) (s : string) : string :=
  match n, s with
  | S n', String c s' => String c (string_take n' s')
  | _, _ => EmptyString
  end.

(** The longest prefix of [s] made of characters of the class. *)
Fixpoint take_class (cls : ascii -> bool) (s : string) : string :=
  match s with
  | String c s' => if cls c then String c (take_class cls s') else EmptyString
  | EmptyString => EmptyString
  end.

(** A greedy group [(C+)] at the start of [s]. *)
Definition group_plus (cls : ascii -> bool) (s : string) : option string :=
  match take_class cls s with
  | EmptyString => None
  | g => Some g
  end.

(** [\s*(C+)] at the start of [s]: [\s*] takes a white character when
    there is one and gives it back when the rest then fails. *)
Fixpoint spaces_then_group (cls : ascii -> bool) (s : string) : option string :=
  match s with
  | String c s' =>
      if isspace c then
        match spaces_then_group cls s' with
        | Some g => Some g
        | None => group_plus cls s
        end
      else group_plus cls s
  | EmptyString => None
  end.

(** [re.search(lit + r'\s*(C+)', s)]: the group of the leftmost match,
    [None] when nothing matches. *)
Fixpoint re_search (lit : string) (cls : ascii -> bool) (s : string)
  : option string :=
  match (if String.prefix lit s
         then spaces_then_group cls (string_drop (String.length lit) s)
         else None) with
  | Some g => Some g
  | None =>
      match s with
      | EmptyString => None
      | String _ s' => re_search lit cls s'
      end
  end.

(** [s.lstrip()], [s.rstrip()] and [s.strip()] *)
Fixpoint lstrip (s : string) : string :=
  match s with
  | String c s' => if isspace c then lstrip s' else s
  | EmptyString => EmptyString
  end.

Fixpoint rstrip (s : string) : string :=
  match s with
  | String c s' =>
      match rstrip s' with
      | EmptyString => if isspace c then EmptyString else String c EmptyString
      | r => String c r
      end
  | EmptyString => EmptyString
  end.

Definition strip (s : string) : string := rstrip (lstrip s).

(** [s.startswith(p)] *)
Definition startswith (s p : string) : bool := String.prefix p s.

(** Newline translation of a file opened in text mode: a carriage return,
    with the line feed after it when there is one, reads as one line feed. *)
Fixpoint universal_newlines (s : string) : string :=
  match s with
  | String c s' =>
      if Ascii.eqb c carriage_return then
        match s' with
        | String c' s'' =>
            if Ascii.eqb c' newline
            then String newline (universal_newlines s'')
            else String newline (universal_newlines s')
        | EmptyString => String newline EmptyString
        end
      else String c (universal_newlines s')
  | EmptyString => EmptyString
  end.

(** The lines of a text, each with the line feed that ends it. *)
Fixpoint split_lines (cur : string) (s : string) : list string :=
  match s with
  | String c s' =>
      if Ascii.eqb c newline
      then (cur ++ String c EmptyString) :: split_lines EmptyString s'
      else split_lines (cur ++ String c EmptyString) s'
  | EmptyString =>
      match cur with
      | EmptyString => []
      | _ => [cur]
      end
  end.

(** [f.readlines()] on a file that decodes. *)
Definition readlines (content : string) : list string :=
  split_lines EmptyString (universal_newlines content).

(** [range(a, b)] *)
Definition range (a b : nat) : list nat := seq a (b - a).

(** ** Annotation scanner *)

(** A file once opened: the lines its iterator hands out, the exception
    that ends the iteration if any, and what [f.readlines()] gives after
    [f.seek(0)]. *)
Record opened := {
  iter_lines : list string;
  iter_end : option exn;
  all_lines : outcome (list string)
}.

Definition open_text (f : file) : opened :=
  match f with
  | Text content =>
      {| iter_lines := readlines content; iter_end := None;
         all_lines := Return (readlines content) |}
  | Undecodable yielded =>
      {| iter_lines := yielded; iter_end := Some UnicodeDecodeError;
         all_lines := Raise UnicodeDecodeError |}
  end.

(** One of the three look-ahead tests on a line: [old] is the value the
    field has so far.
    [if marker in line: field = re.search(marker\s*(.+), line).group(1).strip()] *)
Definition companion (marker line old : string) : outcome string :=
  if contains marker line then
    match re_search marker any_char line with
    | Some g => Return (strip g)
    | None => Raise AttributeError
    end
  else Return old.

(** The body of the look-ahead loop on the line of index [i]. *)
Definition look_ahead_line (line : string) (fields : string * string * string)
  : outcome (string * string * string) :=
  let '(timestamp, task_ref, notes) := fields in
  match companion "@timestamp:" line timestamp with
  | Raise e => Raise e
  | Return timestamp' =>
      match companion "@task:" line task_ref with
      | Raise e => Raise e
      | Return task_ref' =>
          match companion "@notes:" line notes with
          | Raise e => Raise e
          | Return notes' => Return (timestamp', task_ref', notes')
          end
      end
  end.

(** [for i in range(...)] of the look-ahead. *)
Fixpoint look_ahead (lines : list string) (indices : list nat)
    (fields : string * string * string) : outcome (string * string * string) :=
  match indices with
  | [] => Return fields
  | i :: indices' =>
      match lines !! i with
      | None => Raise IndexError
      | Some line =>
          match look_ahead_line line fields with
          | Raise e => Raise e
          | Return fields' => look_ahead lines indices' fields'
          end
      end
  end.

(** The [for line_num, line in enumerate(f, 1)] loop: the annotations
    gathered and the exception that left the loop, if any.  After
    [f.seek(0)] and [f.readlines()] the file is at its end, so the turn that
    builds an annotation is the last one. *)
Fixpoint scan_loop (file_path : string) (f : opened) (line_num : nat)
    (iter : list string) (found : list CodeAnnotation)
  : list CodeAnnotation * option exn :=
  match iter with
  | [] => (found, iter_end f)
  | line :: iter' =>
      if contains "@agent:" line then
        match re_search "@agent:" non_space line with
        | Some name =>
            match all_lines f with
            | Raise e => (found, Some e)
            | Return lines =>
                match look_ahead lines
                        (range line_num (Nat.min (line_num + 5) (length lines)))
                        ("", "", "") with
                | Raise e => (found, Some e)
                | Return (timestamp, task, note) =>
                    ((found ++ [{| ann_file_path := file_path;
                                   line_number := line_num;
                                   ann_agent_name := name;
                                   ann_timestamp := timestamp;
                                   task_ref := task;
                                   notes := note |}])%list,
                     None)
                end
            end
        | None => scan_loop file_path f (S line_num) iter' found
        end
      else scan_loop file_path f (S line_num) iter' found
  end.

(** The [try] block of [scan_code_annotations]. *)
Definition scan_try (file_path : string) (f : option file)
  : list CodeAnnotation * option exn :=
  match f with
  | None => ([], Some (FileNotFoundError file_path))
  | Some f => scan_loop file_path (open_text f) 1 (iter_lines (open_text f)) []
  end.

(** [scan_code_annotations] *)
Definition scan_code_annotations (file_path : string) : M (list CodeAnnotation) :=
  w <- get ;;
  match scan_try file_path (source_files w !! file_path) with
  | (found, Some e) => print (ErrorScanning file_path e) ;;; ret found
  | (found, None) => ret found
  end.

(** [any(skip in str(ts_file) for skip in ['node_modules', 'dist', '.git'])] *)
Definition skipped (path : string) : bool :=
  existsb (fun skip => contains skip path) ["node_modules"; "dist"; ".git"].

(** The [for ts_file in self.base_dir.glob("**/*.ts")] loop over the paths
    the walk yields. *)
Fixpoint scan_files (walk : list string) : M unit :=
  match walk with
  | [] => ret tt
  | ts_file :: walk' =>
      if skipped ts_file then scan_files walk'
      else
        found <- scan_code_annotations ts_file ;;
        (match found with
         | [] => ret tt
         | _ => w <- get ;; set_annotations (<[ts_file := found]> (annotations w))
         end) ;;;
        scan_files walk'
  end.

Definition _save_annotations : M unit :=
  w <- get ;; write_annotations_file (annotations w).

(** The sum printed at the end of [update_annotations_index]. *)
Definition count_annotations (index : gmap string (list CodeAnnotation)) : nat :=
  map_fold (fun _ found n => (length found + n)%nat) 0%nat index.

(** [update_annotations_index]; [walk] is what the glob yields. *)
Definition update_annotations_index (walk : list string) : M unit :=
  print Scanning ;;;
  scan_files walk ;;;
  _save_annotations ;;;
  w <- get ;;
  print (Found (count_annotations (annotations w))).

(** The text of a file given line by line, a line feed after each. *)
Fixpoint text_of (ls : list string) : string :=
  match ls with
  | [] => EmptyString
  | l :: ls' => l ++ String newline (text_of ls')
  end.

(** ** Relevance lookup *)

(** An entry of the list [get_relevant_context] returns. *)
Record Relevant := {
  rel_agent : string;
  rel_task : string;
  rel_message : Message;
  rel_notes : string
}.

Definition relevant_entry (ann : CodeAnnotation) (msg : Message) : Relevant :=
  {| rel_agent := ann_agent_name ann; rel_task := task_ref ann;
     rel_message := msg; rel_notes := notes ann |}.

(** [msg.get('timestamp', '').startswith(ann.timestamp[:10])] *)
Definition same_day (ann : CodeAnnotation) (msg : Message) : bool :=
  startswith (get_timestamp msg) (string_take 10 (ann_timestamp ann)).

(** The [for msg in other_context.messages] loop. *)
Fixpoint relevant_messages (ann : CodeAnnotation) (msgs : list Message)
    (relevant : list Relevant) : list Relevant :=
  match msgs with
  | [] => relevant
  | msg :: msgs' =>
      relevant_messages ann msgs'
        (if same_day ann msg then (relevant ++ [relevant_entry ann msg])%list
         else relevant)
  end.

(** The [for ann in self.annotations[file_path]] loop. *)
Fixpoint relevant_loop (name : string) (anns : list CodeAnnotation)
    (relevant : list Relevant) : M (list Relevant) :=
  match anns with
  | [] => ret relevant
  | ann :: anns' =>
      if bool_decide (ann_agent_name ann <> name) then
        other_context <- load_context (ann_agent_name ann) ;;
        match other_context with
        | Some other =>
            relevant_loop name anns'
              (relevant_messages ann (messages other) relevant)
        | None => relevant_loop name anns' relevant
        end
      else relevant_loop name anns' relevant
  end.

(** [get_relevant_context] *)
Definition get_relevant_context (name file_path : string) : M (list Relevant) :=
  w <- get ;;
  match annotations w !! file_path with
  | Some anns => relevant_loop name anns []
  | None => ret []
  end.

(** ** Task status *)

(** [len(re.findall(lit, s))] for a literal that is not empty: the matches
    are taken from left to right and do not overlap; [skip] is the number
    of characters left of the match just taken. *)
Fixpoint count_matches (lit : string) (skip : nat) (s : string) : nat :=
  match s with
  | EmptyString => 0
  | String _ s' =>
      match skip with
      | S k => count_matches lit k s'
      | O =>
          if String.prefix lit s
          then S (count_matches lit (String.length lit - 1) s')
          else count_matches lit 0 s'
      end
  end.

Definition findall_count (lit s : string) : nat := count_matches lit 0 s.

(** The number of positions of [s] at which [lit] occurs. *)
Fixpoint occurrences (lit s : string) : nat :=
  match s with
  | EmptyString => 0
  | String _ s' =>
      ((if String.prefix lit s then 1 else 0) + occurrences lit s')%nat
  end.

(** The dict [get_task_status] returns for a file that exists. *)
Record TaskStatus := {
  status_file : string;
  total_tasks : nat;
  completed : nat;
  progress : string;
  status : string
}.

Inductive task_result :=
| NotFound
| Status (s : TaskStatus).

(** The body of the [with] block, on the text read. *)
Definition task_status_of (task : string) (content : string) : TaskStatus :=
  let total := findall_count "- [ ]" content in
  let done := findall_count "- [x]" content in
  let status_match := re_search "**Status:**" status_char content in
  {| status_file := task;
     total_tasks := total;
     completed := done;
     progress := pretty done ++ "/" ++ pretty total;
     status := match status_match with
               | Some g => strip g
               | None => "Unknown"
               end |}.

(** [get_task_status] *)
Definition get_task_status (task : string) : M task_result :=
  w <- get ;;
  match task_files w !! task with
  | None => ret NotFound
  | Some (Text content) =>
      ret (Status (task_status_of task (universal_newlines content)))
  | Some (Undecodable _) => raise UnicodeDecodeError
  end.

(** What one annotation adds to the list [get_relevant_context] returns. *)
Definition relevant_of (name : string) (w : World) (ann : CodeAnnotation)
  : list Relevant :=
  if bool_decide (ann_agent_name ann <> name) then
    match context_files w !! context_path (platform w) (ann_agent_name ann) with
    | Some other =>
        map (relevant_entry ann) (List.filter (same_day ann) (messages other))
    | None => []
    end
  else [].

(** A task file with two checked and three unchecked items. *)
Definition example_task : string :=
  text_of ["# Task 1"; "**Status:** In progress | phase 2";
           "- [x] parse"; "- [x] check"; "- [ ] emit"; "- [ ] test";
           "- [ ] ship"].

Definition task_world : World :=
  {| platform := flat_platform; agents := ∅; annotations := ∅;
     context_files := ∅;
     annotations_file := None; source_files := ∅;
     task_files := {[ "task-1.md" := Text example_task ]};
     stdout := [] |}.

(** An annotation without a timestamp by the agent of the worked example,
    in a state where that agent's context is saved. *)
Definition bare_annotation : CodeAnnotation :=
  {| ann_file_path := "src/a.ts"; line_number := 1;
     ann_agent_name := "agent-1"; ann_timestamp := "";
     task_ref := ""; notes := "" |}.

Definition other_context : AgentContext :=
  {| agent_name := "agent-1"; timestamp := "2025-01-01T10:00:00";
     task_file := "task-1.md"; current_tokens := 30; max_tokens := 200000;
     messages :=
       [ {| msg_role := "user"; msg_content := "first";
            msg_timestamp := Some "2025-01-01T10:00:02";
            msg_tokens := Some 10 |};
         {| msg_role := "assistant"; msg_content := "second";
            msg_timestamp := Some "2025-03-07T08:30:00";
            msg_tokens := Some 20 |} ] |}.

Definition relevance_world : World :=
  {| platform := flat_platform; agents := ∅;
     annotations := {[ "src/a.ts" := [bare_annotation] ]};
     context_files := {[ "agent-1.json" := other_context ]};
     annotations_file := None; source_files := ∅; task_files := ∅;
     stdout := [] |}.

(** ** The index update as a function of the files *)

(** [w] with another index and another output. *)
Definition updated (w : World) (index : gmap string (list CodeAnnotation))
    (out : list output) : World :=
  {| platform := platform w;
               agents := agents w; annotations := index;
     context_files := context_files w;
     annotations_file := annotations_file w;
     source_files := source_files w; task_files := task_files w;
     stdout := out |}.

(** The annotations and the error line of the scan of one path. *)
Definition scan_result (files : gmap string file) (path : string)
  : list CodeAnnotation :=
  fst (scan_try path (files !! path)).

Definition scan_errors (files : gmap string file) (path : string)
  : list output :=
  match snd (scan_try path (files !! path)) with
  | Some e => [ErrorScanning path e]
  | None => []
  end.

(** The index after the turn of the walk loop for one path. *)
Definition index_step (files : gmap string file)
    (index : gmap string (list CodeAnnotation)) (path : string)
  : gmap string (list CodeAnnotation) :=
  if skipped path then index
  else match scan_result files path with
       | [] => index
       | found => <[path := found]> index
       end.

Definition index_after (files : gmap string file) (walk : list string)
    (index : gmap string (list CodeAnnotation))
  : gmap string (list CodeAnnotation) :=
  fold_left (index_step files) walk index.

Definition walk_log (files : gmap string file) (walk : list string)
  : list output :=
  flat_map (fun path => if skipped path then [] else scan_errors files path)
           walk.

(** The union of the scans of a walk, keyed by path: the index a rebuild
    from nothing gives. *)
Definition rebuilt_index (files : gmap string file) (walk : list string)
  : gmap string (list CodeAnnotation) :=
  index_after files walk ∅.

(** [path] is walked, not skipped, and its scan finds an annotation. *)
Definition indexed (files : gmap string file) (walk : list string)
    (path : string) : bool :=
  bool_decide (path ∈ walk) && negb (skipped path)
  && match scan_result files path with [] => false | _ => true end.

(** Opening or decoding the file fails. *)
Definition read_fails (f : option file) : Prop :=
  match f with
  | None => True
  | Some (Undecodable _) => True
  | Some (Text _) => False
  end.

(** A second run of the scan: the annotations file of the first run has an
    entry for a file that no longer carries an annotation. *)
Definition old_annotation : CodeAnnotation :=
  {| ann_file_path := "src/a.ts"; line_number := 3;
     ann_agent_name := "agent-1"; ann_timestamp := "2025-01-01";
     task_ref := "task-1"; notes := "" |}.

Definition second_run_disk : World :=
  {| platform := flat_platform; agents := ∅; annotations := ∅;
     context_files := ∅;
     annotations_file := Some {[ "src/a.ts" := [old_annotation] ]};
     source_files :=
       {[ "src/a.ts" := Text (text_of ["export const a = 1;"]);
          "src/b.ts" := Text (text_of ["// @agent: agent-2";
                                       "// @task: task-2"]) ]};
     task_files := ∅; stdout := [] |}.

Definition stale_world : World := new_manager second_run_disk.

(** A tree with a file that does not decode and a path that cannot be
    opened next to a good file. *)
Definition broken_world : World :=
  {| platform := flat_platform; agents := ∅; annotations := ∅;
     context_files := ∅;
     annotations_file := None;
     source_files :=
       {[ "src/bad.ts" := Undecodable ["// @agent: agent-3"];
          "src/b.ts" := Text (text_of ["// @agent: agent-2";
                                       "// @task: task-2"]) ]};
     task_files := ∅; stdout := [] |}.

(** ** The look-ahead as a window of lines *)

(** The agent name an anchor line gives, [None] for a line that is no
    anchor. *)
Definition anchor (line : string) : option string :=
  if contains "@agent:" line then re_search "@agent:" non_space line else None.

Definition no_anchor (lines : list string) : bool :=
  forallb (fun line => match anchor line with None => true | Some _ => false end)
          lines.

Definition companions : list string := ["@timestamp:"; "@task:"; "@notes:"].


(** On every line of the window, a companion marker that is present is
    followed by a character that its pattern can capture. *)
Definition markers_match (window : list string) : bool :=
  forallb (fun line =>
             forallb (fun marker =>
                        negb (contains marker line)
                        || match re_search marker any_char line with
                           | Some _ => true
                           | None => false
                           end)
                     companions)
          window.






(** The look-ahead loop over the lines themselves. *)
Fixpoint look_ahead_lines (window : list string)
    (fields : string * string * string) : outcome (string * string * string) :=
  match window with
  | [] => Return fields
  | line :: window' =>
      match look_ahead_line line fields with
      | Raise e => Raise e
      | Return fields' => look_ahead_lines window' fields'
      end
  end.



(** A file with an anchor and nothing else. *)
Definition bare_anchor_lines : list string :=
  ["import x from 'x';"; "// @agent: foo"; "const a = 1;"].

(** ** More on the context store *)

(** The agent a call works on. *)
Definition op_name (o : op) : string :=
  match o with
  | Register name _ _ => name
  | AddMessage name _ _ _ _ => name
  | Trim name => name
  end.

(** The budget a registered context keeps: the counter is within
    [max_tokens], or at most one message is left. *)
Definition within_budget (c : AgentContext) : Prop :=
  max_tokens c = 200000
  /\ (current_tokens c <= max_tokens c \/ (length (messages c) <= 1)%nat).

(** All the token costs of a list of messages are non-negative. *)
Definition costs_nonneg (ms : list Message) : Prop :=
  Forall (fun m => 0 <= get_tokens m) ms.

(** A context with a first message of cost 1000 and two more messages. *)
Definition three_message_context : AgentContext :=
  {| agent_name := "agent-3"; timestamp := "2025-01-01T10:00:00";
     task_file := "task-3.md"; current_tokens := 151000;
     max_tokens := 200000;
     messages :=
       [ {| msg_role := "system"; msg_content := "rules";
            msg_timestamp := Some "2025-01-01T10:00:01";
            msg_tokens := Some 1000 |};
         {| msg_role := "user"; msg_content := "first";
            msg_timestamp := Some "2025-01-01T10:00:02";
            msg_tokens := Some 70000 |};
         {| msg_role := "assistant"; msg_content := "second";
            msg_timestamp := Some "2025-01-01T10:00:03";
            msg_tokens := Some 80000 |} ] |}.

Definition three_message_world : World :=
  {| platform := flat_platform;
     agents := {[ "agent-3" := three_message_context ]}; annotations := ∅;
     context_files := {[ "agent-3.json" := three_message_context ]};
     annotations_file := None; source_files := ∅; task_files := ∅;
     stdout := [] |}.

(** A tree in which a source file has the letters of a skip marker in its
    name. *)
Definition distance_world : World :=
  {| platform := flat_platform; agents := ∅; annotations := ∅;
     context_files := ∅;
     annotations_file := None;
     source_files :=
       {[ "src/distance.ts" := Text (text_of ["// @agent: agent-2";
                                               "// @task: task-2"]) ]};
     task_files := ∅; stdout := [] |}.

(** Every character of [s] is in the class. *)
Fixpoint string_forallb (cls : ascii -> bool) (s : string) : bool :=
  match s with
  | EmptyString => true
  | String c s' => cls c && string_forallb cls s'
  end.

(** A file whose anchor is followed by a marker with nothing after it. *)
Definition empty_marker_lines : list string :=
  ["// @agent: foo"; "// @task: task-1"; "// @notes:"].

Definition empty_marker_world : World :=
  {| platform := flat_platform; agents := ∅; annotations := ∅;
     context_files := ∅;
     annotations_file := None;
     source_files := {[ "src/c.ts" := Text (text_of empty_marker_lines) ]};
     task_files := ∅; stdout := [] |}.

(** The part of the state the context store works on. *)
Definition stores (w : World)
  : Platform * gmap string AgentContext * gmap string AgentContext :=
  (platform w, agents w, context_files w).


(** The record [register_agent] builds. *)
Definition fresh_context (name task now : string) : AgentContext :=
  {| agent_name := name; timestamp := now; task_file := task;
     current_tokens := 0; max_tokens := 200000; messages := [] |}.

(** Every record of the registry, or of the context files, satisfies [P]. *)
Definition registry_has (P : AgentContext -> Prop) (w : World) : Prop :=
  forall name c, agents w !! name = Some c -> P c.

Definition files_have (P : AgentContext -> Prop) (w : World) : Prop :=
  forall file c, context_files w !! file = Some c -> P c.

(** A registered agent whose context file cannot be opened for writing:
    [register_agent] has put it in the registry before the write failed. *)
Definition nested_world : World :=
  snd (register_agent "a/b" "task-1.md" "2025-01-01T10:00:00" empty_world).

(** The same agent after a message of cost 250000: one message, over
    budget. *)
Definition nested_over_budget_world : World :=
  snd (add_message "a/b" "system" "rules" 250000 "2025-01-01T10:00:01"
         nested_world).


(** * Properties *)

(** ** The trim loop *)

Lemma token_sum_app ms1 ms2 :
  token_sum (ms1 ++ ms2) = token_sum ms1 + token_sum ms2.
Proof. induction ms1 as [|m ms1 IH]; simpl; [reflexivity | rewrite IH; lia]. Qed.

Lemma trim_guard_true target_tokens c :
  trim_guard target_tokens c = true ->
  exists m0 m1 rest,
    messages c = m0 :: m1 :: rest /\ current_tokens c > target_tokens.
Proof.
  unfold trim_guard. rewrite andb_true_iff, !bool_decide_eq_true.
  intros [Hcur Hlen].
  destruct (messages c) as [|m0 [|m1 rest]]; simpl in Hlen; try lia.
  now exists m0, m1, rest.
Qed.

Lemma trim_guard_false target_tokens c :
  trim_guard target_tokens c = false ->
  current_tokens c <= target_tokens \/ (length (messages c) <= 1)%nat.
Proof.
  unfold trim_guard. rewrite andb_false_iff, !bool_decide_eq_false. lia.
Qed.

Lemma trim_body_ok c : context_ok c -> context_ok (trim_body c).
Proof.
  unfold context_ok, trim_body, list_pop.
  destruct (messages c) as [|m0 [|m1 rest]] eqn:Hms; simpl;
    rewrite ?Hms; simpl; lia.
Qed.

Lemma trim_loop_ok target_tokens c :
  context_ok c -> context_ok (trim_loop target_tokens c).
Proof.
  funelim (trim_loop target_tokens c); intros Hok.
  - auto using trim_body_ok.
  - exact Hok.
Qed.

Lemma trim_loop_fields target_tokens c :
  agent_name (trim_loop target_tokens c) = agent_name c
  /\ timestamp (trim_loop target_tokens c) = timestamp c
  /\ task_file (trim_loop target_tokens c) = task_file c
  /\ max_tokens (trim_loop target_tokens c) = max_tokens c.
Proof.
  funelim (trim_loop target_tokens c).
  - destruct H as (-> & -> & -> & ->).
    unfold trim_body. destruct (list_pop 1 (messages context)) as [[? ?]|]; auto.
  - auto.
Qed.

(** What the loop does, by the number [k] of turns it takes. *)
Lemma trim_loop_removes target_tokens c :
  exists k : nat,
    (k <= length (messages c) - 1)%nat
    /\ messages (trim_loop target_tokens c)
       = (take 1 (messages c) ++ drop (S k) (messages c))%list
    /\ current_tokens (trim_loop target_tokens c)
       = current_tokens c - token_sum (take k (drop 1 (messages c)))
    /\ (forall j : nat, (j < k)%nat ->
          current_tokens c - token_sum (take j (drop 1 (messages c)))
          > target_tokens)
    /\ (current_tokens (trim_loop target_tokens c) <= target_tokens
        \/ (length (messages (trim_loop target_tokens c)) <= 1)%nat).
Proof.
  funelim (trim_loop target_tokens c).
  - clear Heqcall.
    destruct (trim_guard_true _ _ Hguard) as (m0 & m1 & rest & Hms & Hcur).
    destruct H as (k & Hk & Hmsgs & Htok & Hmin & Hstop).
    unfold trim_body, list_pop in *. rewrite Hms in *. simpl in *.
    change (drop 0 rest) with rest in *.
    exists (S k). split; [lia|]. split; [exact Hmsgs|].
    split; [rewrite Htok; simpl; lia|]. split; [|exact Hstop].
    intros [|j] Hj; simpl.
    + lia.
    + specialize (Hmin j ltac:(lia)). lia.
  - exists 0%nat. split; [lia|].
    split; [destruct (messages context); reflexivity|].
    split; [simpl; lia|]. split; [intros j Hj; lia|].
    now apply trim_guard_false.
Qed.

(** ** What each operation of the context store leaves behind *)

Lemma register_agent_run name task now w :
  exists w',
    register_agent name task now w = (save_outcome w name, w')
    /\ stores w' = (platform w, <[name := fresh_context name task now]> (agents w),
                    saved w name (fresh_context name task now)).
Proof.
  unfold register_agent, _save_context, bind, get, set_agent, save_outcome,
    saved, file_of, stores. simpl.
  destruct (writable (platform w) (context_path (platform w) name));
    eexists; split; reflexivity.
Qed.

Lemma _trim_context_run name w c :
  agents w !! name = Some c ->
  let c' := trim_loop (max_tokens c - 20000) c in
  exists w',
    _trim_context name w = (save_outcome w name, w')
    /\ stores w' = (platform w, <[name := c']> (agents w), saved w name c').
Proof.
  intros Hc. unfold _trim_context, _save_context, bind, get, save_outcome,
    saved, file_of, stores. rewrite Hc. simpl.
  destruct (writable (platform w) (context_path (platform w) name));
    eexists; split; reflexivity.
Qed.

Lemma _trim_context_unknown name w :
  agents w !! name = None ->
  _trim_context name w = (Raise (KeyError name), w).
Proof.
  intros Hc. unfold _trim_context, bind, get. now rewrite Hc.
Qed.

Lemma add_message_run name role content tokens now w c :
  agents w !! name = Some c ->
  let c' := after_add c role content tokens now in
  exists w',
    add_message name role content tokens now w = (save_outcome w name, w')
    /\ stores w' = (platform w, <[name := c']> (agents w), saved w name c').
Proof.
  intros Hc. unfold add_message, after_add, appended.
  unfold bind at 1. unfold get at 1. rewrite Hc.
  set (c1 := Build_AgentContext _ _ _ _ _ _).
  unfold bind at 1. unfold set_agent at 1.
  set (w1 := Build_World _ _ _ _ _ _ _ _).
  assert (Hw1 : agents w1 !! name = Some c1) by apply lookup_insert_eq.
  unfold bind at 1.
  destruct (bool_decide (current_tokens c1 > max_tokens c1)).
  - destruct (_trim_context_run name w1 c1 Hw1) as (w2 & -> & Hst).
    unfold stores in Hst. injection Hst as Hpl Hag Hfi.
    unfold save_outcome, saved, file_of in *. subst w1. simpl in *.
    destruct (writable (platform w) (context_path (platform w) name)) eqn:Hwr.
    + unfold bind, get. rewrite Hag, lookup_insert_eq.
      unfold _save_context, bind, get. rewrite Hpl, Hwr.
      eexists. split; [reflexivity|].
      unfold stores. simpl. rewrite Hpl, Hag, Hfi.
      f_equal; [f_equal|]; apply insert_insert_eq.
    + eexists. split; [reflexivity|].
      unfold stores. rewrite Hpl, Hag, Hfi.
      do 2 f_equal. apply insert_insert_eq.
  - unfold ret, bind, get. rewrite Hw1.
    unfold _save_context, bind, get, save_outcome, saved, file_of.
    subst w1. simpl.
    destruct (writable (platform w) (context_path (platform w) name));
      eexists; (split; [reflexivity|]); reflexivity.
Qed.

Lemma add_message_unknown name role content tokens now w :
  agents w !! name = None ->
  add_message name role content tokens now w
  = (Raise (ValueError ("Agent " ++ name ++ " not registered")), w).
Proof.
  intros Hc. unfold add_message, bind, get. now rewrite Hc.
Qed.

Lemma appended_ok c role content tokens now :
  context_ok c -> context_ok (appended c role content tokens now).
Proof.
  unfold context_ok, appended. simpl. intros ->.
  rewrite token_sum_app. simpl. unfold get_tokens. simpl. lia.
Qed.

Lemma after_add_ok c role content tokens now :
  context_ok c -> context_ok (after_add c role content tokens now).
Proof.
  intros Hok. unfold after_add.
  destruct (bool_decide _); auto using trim_loop_ok, appended_ok.
Qed.

Lemma stores_lookup w' pl name c (ag fi : gmap string AgentContext) :
  stores w' = (pl, <[name := c]> ag, fi) ->
  agents w' !! name = Some c /\ context_files w' = fi /\ platform w' = pl.
Proof.
  unfold stores. intros [= -> -> ->]. now rewrite lookup_insert_eq.
Qed.

(** What a call does to the registry and the context files: nothing, or it
    puts a record [c'] in the registry under the name of the call and saves
    it; [c'] is a new record, or the record of the name after
    [add_message] or [_trim_context]. *)
Lemma run_op_cases o w :
  snd (run_op o w) = w
  \/ exists c',
       stores (snd (run_op o w))
       = (platform w, <[op_name o := c']> (agents w), saved w (op_name o) c')
       /\ ((exists task now,
              o = Register (op_name o) task now
              /\ c' = fresh_context (op_name o) task now)
           \/ (exists c role content tokens now,
                 agents w !! op_name o = Some c
                 /\ c' = after_add c role content tokens now)
           \/ (exists c,
                 agents w !! op_name o = Some c
                 /\ c' = trim_loop (max_tokens c - 20000) c)).
Proof.
  destruct o as [n task now|n role content tokens now|n];
    unfold run_op; cbn [op_name].
  - right. destruct (register_agent_run n task now w) as (w' & -> & Hst).
    eexists. split; [exact Hst|]. left. now exists task, now.
  - destruct (agents w !! n) as [c|] eqn:Hc.
    + right.
      destruct (add_message_run _ role content tokens now _ _ Hc)
        as (w' & -> & Hst).
      eexists. split; [exact Hst|]. right. left.
      now exists c, role, content, tokens, now.
    + left. now rewrite add_message_unknown.
  - destruct (agents w !! n) as [c|] eqn:Hc.
    + right. destruct (_trim_context_run _ _ _ Hc) as (w' & -> & Hst).
      eexists. split; [exact Hst|]. right. right. now exists c.
    + left. now rewrite _trim_context_unknown.
Qed.



Lemma saved_lookup w name c file :
  saved w name c !! file
  = if writable (platform w) (file_of w name) && bool_decide (file = file_of w name)
    then Some c
    else context_files w !! file.
Proof.
  unfold saved. destruct (writable (platform w) (file_of w name)); simpl;
    [|reflexivity].
  destruct (decide (file = file_of w name)) as [->|Hne].
  - now rewrite bool_decide_true, lookup_insert_eq.
  - rewrite bool_decide_false by assumption.
    now rewrite lookup_insert_ne by congruence.
Qed.

Section AgentInvariant.
Variable P : AgentContext -> Prop.

Hypothesis P_register : forall name task now, P (fresh_context name task now).
Hypothesis P_add : forall c role content tokens now,
  P c -> P (after_add c role content tokens now).
Hypothesis P_trim : forall c, P c -> P (trim_loop (max_tokens c - 20000) c).

Lemma run_op_new_record o w c' :
  registry_has P w ->
  ((exists task now,
      o = Register (op_name o) task now
      /\ c' = fresh_context (op_name o) task now)
   \/ (exists c role content tokens now,
         agents w !! op_name o = Some c
         /\ c' = after_add c role content tokens now)
   \/ (exists c,
         agents w !! op_name o = Some c
         /\ c' = trim_loop (max_tokens c - 20000) c)) ->
  P c'.
Proof.
  intros Hw [(task & now & _ & ->)
            |[(c & role & content & tokens & now & Hc & ->)
             |(c & Hc & ->)]].
  - apply P_register.
  - apply P_add, (Hw _ _ Hc).
  - apply P_trim, (Hw _ _ Hc).
Qed.

Lemma run_op_registry_has o w :
  registry_has P w -> registry_has P (snd (run_op o w)).
Proof.
  intros Hw. destruct (run_op_cases o w) as [->|(c' & Hst & Hc')];
    [exact Hw|].
  pose proof (run_op_new_record o w c' Hw Hc') as HP.
  unfold stores in Hst. injection Hst as _ Hag _.
  intros name c. rewrite Hag.
  destruct (decide (op_name o = name)) as [->|Hne].
  - rewrite lookup_insert_eq. now intros [= <-].
  - rewrite lookup_insert_ne by assumption. apply Hw.
Qed.

Lemma run_op_files_have o w :
  registry_has P w -> files_have P w -> files_have P (snd (run_op o w)).
Proof.
  intros Hw Hf. destruct (run_op_cases o w) as [->|(c' & Hst & Hc')];
    [exact Hf|].
  pose proof (run_op_new_record o w c' Hw Hc') as HP.
  unfold stores in Hst. injection Hst as _ _ Hfi.
  intros file c. rewrite Hfi, saved_lookup.
  destruct (_ && _); [now intros [= <-]|apply Hf].
Qed.

Lemma exec_registry_has ops : forall w,
  registry_has P w -> registry_has P (exec ops w).
Proof.
  induction ops as [|o ops IH]; intros w Hw; simpl; [exact Hw|].
  apply IH. now apply run_op_registry_has.
Qed.

Lemma exec_files_have ops : forall w,
  registry_has P w -> files_have P w -> files_have P (exec ops w).
Proof.
  induction ops as [|o ops IH]; intros w Hw Hf; simpl; [exact Hf|].
  apply IH; [now apply run_op_registry_has|now apply run_op_files_have].
Qed.
End AgentInvariant.

Lemma new_manager_registry_has P w : registry_has P (new_manager w).
Proof. intros name c. simpl. now rewrite lookup_empty. Qed.

Lemma context_ok_closed :
  (forall name task now, context_ok (fresh_context name task now))
  /\ (forall c role content tokens now,
        context_ok c -> context_ok (after_add c role content tokens now))
  /\ (forall c, context_ok c ->
        context_ok (trim_loop (max_tokens c - 20000) c)).
Proof.
  split; [reflexivity|]. split; [apply after_add_ok|].
  intros c. apply trim_loop_ok.
Qed.

(** ** Claims on the context store *)

(** C1: after every sequence of [register_agent], [add_message] and
    [_trim_context] calls on a new manager, whether they return or raise,
    the token counter of every registered agent is the sum of the token
    costs of the messages it retains; and when the records in the context
    files at start-up have this property, so has every record that
    [load_context] returns afterwards. *)
Theorem C1_counter_is_sum_of_retained (w0 : World) (ops : list op)
    (name : string) (c : AgentContext) :
  agents (exec ops (new_manager w0)) !! name = Some c ->
  current_tokens c = token_sum (messages c)
  /\ (files_have context_ok w0 ->
      forall (n : string) (c' : AgentContext),
        fst (load_context n (exec ops (new_manager w0))) = Return (Some c') ->
        current_tokens c' = token_sum (messages c')).
Proof.
  intros Hc. destruct context_ok_closed as (Hreg & Hadd & Htrim).
  pose proof (new_manager_registry_has context_ok w0) as Hnew.
  split.
  - exact (exec_registry_has context_ok Hreg Hadd Htrim ops _ Hnew name c Hc).
  - intros Hfiles n c'. unfold load_context, bind, get, ret. simpl.
    intros [= Hload].
    exact (exec_files_have context_ok Hreg Hadd Htrim ops _ Hnew Hfiles
             _ _ Hload).
Qed.

Lemma C1_counter_is_sum_of_retained_witness :
  exists c : AgentContext,
    agents (exec (example_setup ++ [example_last]) (new_manager empty_world))
      !! "agent-1" = Some c
    /\ current_tokens c = token_sum (messages c)
    /\ forall (n : string) (c' : AgentContext),
         fst (load_context n (exec (example_setup ++ [example_last])
                                   (new_manager empty_world)))
         = Return (Some c') ->
         current_tokens c' = token_sum (messages c').
Proof.
  eexists. split; [vm_compute; reflexivity|].
  destruct (C1_counter_is_sum_of_retained empty_world
              (example_setup ++ [example_last]) "agent-1" _
              ltac:(vm_compute; reflexivity)) as [Hsum Hfiles].
  split; [exact Hsum|]. apply Hfiles.
  intros file c0. simpl. rewrite lookup_empty. discriminate.
Defined.

(** C2, as amended: [_trim_context] on a registered agent sets the target
    to [max_tokens - 20000] and removes [k] messages, those at positions
    [1..k] of the list it started from, subtracting their costs; every
    removal happens while the counter is above the target and more than one
    message is left; the loop ends with the counter at most the target or
    at most one message left (exactly one when the list was not empty); the
    message at position 0 stays.  The loop always ends, and the call
    returns when the context file can be written, also when the message
    left is over budget; when the file cannot be written, the exception of
    the failed write is raised, the registry holding the trimmed record. *)
Theorem C2_trim_policy (w : World) (name : string) (c : AgentContext) :
  agents w !! name = Some c ->
  let target := max_tokens c - 20000 in
  let c' := trim_loop target c in
  exists (k : nat) (w' : World),
    _trim_context name w
    = (if writable (platform w) (context_path (platform w) name)
       then Return tt
       else Raise (write_error (platform w) (context_path (platform w) name)),
       w')
    /\ agents w' !! name = Some c'
    /\ (k <= length (messages c) - 1)%nat
    /\ messages c' = (take 1 (messages c) ++ drop (S k) (messages c))%list
    /\ current_tokens c'
       = current_tokens c - token_sum (take k (drop 1 (messages c)))
    /\ (forall j : nat, (j < k)%nat ->
          current_tokens c - token_sum (take j (drop 1 (messages c))) > target)
    /\ (current_tokens c' <= target \/ (length (messages c') <= 1)%nat)
    /\ messages c' !! 0%nat = messages c !! 0%nat
    /\ (messages c <> [] ->
        current_tokens c' <= target \/ length (messages c') = 1%nat).
Proof.
  intros Hc target c'.
  destruct (trim_loop_removes target c) as (k & Hk & Hms & Htok & Hmin & Hstop).
  destruct (_trim_context_run name w c Hc) as (w' & Hrun & Hst).
  apply stores_lookup in Hst as [Hag _].
  exists k, w'. fold target in Hag. fold c' in Hag. fold c' in Hms, Htok, Hstop.
  split; [exact Hrun|].
  repeat (split; [assumption|]). split.
  - rewrite Hms. destruct (messages c); reflexivity.
  - intros Hne. destruct Hstop as [Hle|Hlen]; [now left|right].
    rewrite Hms in *. destruct (messages c) as [|m0 rest]; [done|].
    simpl in *. lia.
Qed.

Lemma C2_trim_policy_witness :
  exists (k : nat) (w' : World),
    _trim_context "agent-2" over_budget_world = (Return tt, w')
    /\ agents w' !! "agent-2"
       = Some (trim_loop (200000 - 20000) over_budget_context)
    /\ messages (trim_loop (200000 - 20000) over_budget_context)
       = messages over_budget_context
    /\ current_tokens (trim_loop (200000 - 20000) over_budget_context) = 250000.
Proof.
  destruct (C2_trim_policy over_budget_world "agent-2" over_budget_context)
    as (k & w' & Hrun & Hag & _); [vm_compute; reflexivity|].
  exists k, w'. split; [exact Hrun|]. split; [exact Hag|].
  split; vm_compute; reflexivity.
Defined.

(** C2, as stated, fails: the agent [a/b] is in the registry with a
    single message, over budget, and [_trim_context] raises for it, since
    its context file cannot be written. *)
Lemma C2_failed_write_is_raised :
  (exists c : AgentContext,
     agents nested_over_budget_world !! "a/b" = Some c
     /\ length (messages c) = 1%nat
     /\ current_tokens c > max_tokens c - 20000)
  /\ fst (_trim_context "a/b" nested_over_budget_world)
     = Raise (FileNotFoundError "a/b.json")
  /\ ~ (forall (w : World) (name : string) (c : AgentContext),
          agents w !! name = Some c ->
          exists w', _trim_context name w = (Return tt, w')).
Proof.
  split; [eexists; split; [vm_compute; reflexivity|split; reflexivity]|].
  assert (Hraise : fst (_trim_context "a/b" nested_over_budget_world)
                   = Raise (FileNotFoundError "a/b.json"))
    by (vm_compute; reflexivity).
  split; [exact Hraise|]. intros H.
  destruct (H nested_over_budget_world "a/b" _ ltac:(vm_compute; reflexivity))
    as [w' Hrun].
  rewrite Hrun in Hraise. discriminate Hraise.
Qed.

(** C5: with the default [max_tokens = 200000], after messages of costs 0,
    50000 and 80000 the counter is 130000 and nothing was trimmed; adding
    the message of cost 90000 brings the counter to 220000, which starts
    [_trim_context] with target 180000; it removes the message of cost 50000
    only, and leaves the costs [0; 80000; 90000] and the counter 170000. *)
Theorem C5_worked_example :
  let w3 := exec example_setup (new_manager empty_world) in
  let w4 := snd (run_op example_last w3) in
  (exists c3, agents w3 !! "agent-1" = Some c3
     /\ max_tokens c3 = 200000
     /\ current_tokens c3 = 130000
     /\ map get_tokens (messages c3) = [0; 50000; 80000]
     /\ stdout w3 = [Registered "agent-1"]
     /\ exists c4, agents w4 !! "agent-1" = Some c4
        /\ fst (run_op example_last w3) = Return tt
        /\ stdout w4 = [Registered "agent-1"; Trimming "agent-1" 220000;
                        Trimmed "agent-1" 170000]
        /\ max_tokens c4 - 20000 = 180000
        /\ map get_tokens (messages c4) = [0; 80000; 90000]
        /\ current_tokens c4 = 170000
        /\ messages c4
           = (take 1 (messages c3) ++ drop 2 (messages c3)
              ++ [{| msg_role := "user"; msg_content := "third";
                     msg_timestamp := Some "2025-01-01T10:00:04";
                     msg_tokens := Some 90000 |}])%list
        /\ context_files w4 !! context_path (platform w4) "agent-1" = Some c4).
Proof.
  eexists. split; [vm_compute; reflexivity|].
  do 4 (split; [vm_compute; reflexivity|]).
  eexists. split; [vm_compute; reflexivity|].
  repeat split; vm_compute; reflexivity.
Qed.

(** C6, as amended: [add_message] for a name that is not in the registry
    raises ValueError and leaves the state as it was; for a name that is in
    the registry it returns when the context file of the agent can be
    written, and raises the exception of the failed write when it cannot. *)
Theorem C6_add_message_unknown_agent (w : World) (name role content : string)
    (tokens : Z) (now : string) :
  (agents w !! name = None ->
     add_message name role content tokens now w
     = (Raise (ValueError ("Agent " ++ name ++ " not registered")), w))
  /\ (is_Some (agents w !! name) ->
      exists w',
        add_message name role content tokens now w
        = (if writable (platform w) (context_path (platform w) name)
           then Return tt
           else Raise (write_error (platform w) (context_path (platform w) name)),
       w'))
  /\ (is_Some (agents w !! name) ->
      writable (platform w) (context_path (platform w) name) = true ->
      exists w', add_message name role content tokens now w = (Return tt, w')).
Proof.
  assert (Hreg : is_Some (agents w !! name) ->
    exists w',
      add_message name role content tokens now w = (save_outcome w name, w')).
  { intros [c Hc].
    destruct (add_message_run name role content tokens now w c Hc)
      as (w' & Hrun & _).
    now exists w'. }
  split; [apply add_message_unknown|]. split; [exact Hreg|].
  intros Hsome Hwr. destruct (Hreg Hsome) as [w' Hrun].
  exists w'. rewrite Hrun. unfold save_outcome, file_of. now rewrite Hwr.
Qed.

Lemma C6_add_message_unknown_agent_witness :
  add_message "ghost" "user" "hello" 10 "2025-01-01T10:00:05" over_budget_world
  = (Raise (ValueError "Agent ghost not registered"), over_budget_world)
  /\ exists w', add_message "agent-2" "user" "hello" 10 "2025-01-01T10:00:05"
                  over_budget_world = (Return tt, w').
Proof.
  split.
  - apply (proj1 (C6_add_message_unknown_agent over_budget_world "ghost"
                    "user" "hello" 10 "2025-01-01T10:00:05")).
    vm_compute. reflexivity.
  - apply (proj2 (proj2 (C6_add_message_unknown_agent over_budget_world
                           "agent-2" "user" "hello" 10
                           "2025-01-01T10:00:05"))).
    + eexists. vm_compute. reflexivity.
    + vm_compute. reflexivity.
Defined.

(** C6, as stated, fails: [a/b] is in the registry, since [register_agent]
    enters the name before it saves, and [add_message] raises for it,
    because its context file lies in a directory that does not exist. *)
Lemma C6_registered_agent_can_raise :
  is_Some (agents nested_world !! "a/b")
  /\ fst (add_message "a/b" "user" "hello" 10 "2025-01-01T10:00:05"
            nested_world) = Raise (FileNotFoundError "a/b.json")
  /\ ~ (forall (w : World) (name role content : string) (tokens : Z)
          (now : string),
          is_Some (agents w !! name) ->
          exists w', add_message name role content tokens now w
                     = (Return tt, w')).
Proof.
  assert (Hreg : is_Some (agents nested_world !! "a/b"))
    by (eexists; vm_compute; reflexivity).
  assert (Hraise : fst (add_message "a/b" "user" "hello" 10
                          "2025-01-01T10:00:05" nested_world)
                   = Raise (FileNotFoundError "a/b.json")) by (vm_compute; reflexivity).
  split; [exact Hreg|]. split; [exact Hraise|].
  intros H.
  destruct (H nested_world "a/b" "user" "hello" 10 "2025-01-01T10:00:05" Hreg)
    as [w' Hrun].
  rewrite Hrun in Hraise. discriminate Hraise.
Qed.






(** ** Task status *)

Lemma prefix_split (s1 s2 : string) :
  String.prefix s1 s2 = true -> exists t, s2 = s1 ++ t.
Proof.
  revert s2. induction s1 as [|a s1 IH]; intros s2 H.
  - now exists s2.
  - destruct s2 as [|b s2]; simpl in H; [discriminate|].
    destruct (ascii_dec a b) as [->|]; [|discriminate].
    destruct (IH _ H) as [t ->]. now exists t.
Qed.

Section Findall.
Variable lit : string.

(** [lit] does not occur again inside one of its occurrences. *)
Hypothesis no_overlap : forall (t : string) (j : nat),
  (j < String.length lit - 1)%nat ->
  String.prefix lit (string_drop j (string_drop 1 (lit ++ t))) = false.

Lemma count_matches_occurrences (s : string) : forall k : nat,
  (forall j : nat, (j < k)%nat -> String.prefix lit (string_drop j s) = false) ->
  count_matches lit k s = occurrences lit s.
Proof.
  induction s as [|c s' IH]; intros k Hk; [reflexivity|].
  cbn [count_matches occurrences]. destruct k as [|k].
  - destruct (String.prefix lit (String c s')) eqn:E.
    + f_equal. apply IH. intros j Hj.
      destruct (prefix_split _ _ E) as [t Ht].
      replace s' with (string_drop 1 (String c s')) by reflexivity.
      rewrite Ht. now apply no_overlap.
    + apply IH. intros j Hj. lia.
  - assert (H0 : String.prefix lit (String c s') = false)
      by (apply (Hk 0%nat); lia).
    rewrite H0. apply IH. intros j Hj. apply (Hk (S j)). lia.
Qed.

Lemma findall_count_occurrences (s : string) :
  findall_count lit s = occurrences lit s.
Proof. apply count_matches_occurrences. intros j Hj. lia. Qed.
End Findall.

Lemma unchecked_no_overlap (t : string) (j : nat) :
  (j < String.length "- [ ]" - 1)%nat ->
  String.prefix "- [ ]" (string_drop j (string_drop 1 ("- [ ]" ++ t))) = false.
Proof.
  simpl. intros Hj. destruct j as [|[|[|[|j]]]]; try lia; reflexivity.
Qed.

Lemma checked_no_overlap (t : string) (j : nat) :
  (j < String.length "- [x]" - 1)%nat ->
  String.prefix "- [x]" (string_drop j (string_drop 1 ("- [x]" ++ t))) = false.
Proof.
  simpl. intros Hj. destruct j as [|[|[|[|j]]]]; try lia; reflexivity.
Qed.

(** C9: for a task file that can be read, [get_task_status] reports as
    [total_tasks] the number of occurrences of the unchecked marker only,
    as [completed] the number of occurrences of the checked marker, and as
    [progress] the two numbers in decimal with a slash between them; with
    2 checked and 3 unchecked markers these are 3, 2 and the string 2/3. *)
Theorem C9_task_counts (w : World) (task content : string) :
  task_files w !! task = Some (Text content) ->
  let text := universal_newlines content in
  exists st : TaskStatus,
    get_task_status task w = (Return (Status st), w)
    /\ total_tasks st = occurrences "- [ ]" text
    /\ completed st = occurrences "- [x]" text
    /\ progress st = pretty (completed st) ++ "/" ++ pretty (total_tasks st)
    /\ (occurrences "- [x]" text = 2%nat -> occurrences "- [ ]" text = 3%nat ->
        total_tasks st = 3%nat /\ completed st = 2%nat /\ progress st = "2/3").
Proof.
  intros Hfile text.
  exists (task_status_of task text). split.
  - unfold get_task_status, bind, get, ret. now rewrite Hfile.
  - unfold task_status_of. cbn [total_tasks completed progress].
    rewrite (findall_count_occurrences _ unchecked_no_overlap).
    rewrite (findall_count_occurrences _ checked_no_overlap).
    do 3 (split; [reflexivity|]).
    intros -> ->. repeat split.
Qed.

Lemma C9_task_counts_witness :
  exists st : TaskStatus,
    get_task_status "task-1.md" task_world = (Return (Status st), task_world)
    /\ total_tasks st = 3%nat /\ completed st = 2%nat /\ progress st = "2/3".
Proof.
  destruct (C9_task_counts task_world "task-1.md" example_task)
    as (st & Hrun & _ & _ & _ & Hex); [reflexivity|].
  exists st. split; [exact Hrun|]. apply Hex; vm_compute; reflexivity.
Defined.

(** ** Relevance lookup *)

Lemma relevant_messages_filter ann msgs relevant :
  relevant_messages ann msgs relevant
  = (relevant ++ map (relevant_entry ann) (List.filter (same_day ann) msgs))%list.
Proof.
  revert relevant. induction msgs as [|msg msgs IH]; intros relevant; simpl.
  - now rewrite app_nil_r.
  - rewrite IH. destruct (same_day ann msg); simpl; [|reflexivity].
    now rewrite <- app_assoc.
Qed.

Lemma relevant_loop_run name anns relevant w :
  relevant_loop name anns relevant w
  = (Return (relevant ++ flat_map (relevant_of name w) anns)%list, w).
Proof.
  revert relevant. induction anns as [|ann anns IH]; intros relevant; simpl.
  - unfold ret. now rewrite app_nil_r.
  - unfold relevant_of at 1.
    destruct (bool_decide (ann_agent_name ann <> name)).
    + unfold bind, load_context, get, ret. simpl.
      destruct (context_files w !! context_path (platform w)
                                     (ann_agent_name ann)) as [other|].
      * rewrite IH, relevant_messages_filter. now rewrite <- app_assoc.
      * now rewrite IH.
    + now rewrite IH.
Qed.

Lemma same_day_no_timestamp ann msg :
  ann_timestamp ann = "" -> same_day ann msg = true.
Proof.
  unfold same_day, startswith. intros ->. simpl.
  now destruct (get_timestamp msg).
Qed.

Lemma filter_all {A} (p : A -> bool) (l : list A) :
  (forall x, p x = true) -> List.filter p l = l.
Proof.
  intros Hp. induction l as [|x l IH]; simpl; [reflexivity|].
  now rewrite Hp, IH.
Qed.

(** C10: for an annotation of the file whose timestamp is empty, written
    by another agent whose context is saved, [get_relevant_context] returns
    one entry for every message of that context, in order, whatever the
    timestamp of the message is; the entry carries the message itself with
    the agent, the task and the notes of the annotation.  The day test is
    a prefix test against the empty string, which every message passes. *)
Theorem C10_empty_timestamp_matches_all (w : World) (name file_path : string)
    (before after : list CodeAnnotation) (ann : CodeAnnotation)
    (other : AgentContext) :
  annotations w !! file_path = Some (before ++ ann :: after)%list ->
  ann_timestamp ann = "" ->
  ann_agent_name ann <> name ->
  fst (load_context (ann_agent_name ann) w) = Return (Some other) ->
  (forall msg, same_day ann msg = true)
  /\ exists r : list Relevant,
       get_relevant_context name file_path w = (Return r, w)
       /\ r = (flat_map (relevant_of name w) before
               ++ map (fun msg => {| rel_agent := ann_agent_name ann;
                                     rel_task := task_ref ann;
                                     rel_message := msg;
                                     rel_notes := notes ann |})
                      (messages other)
               ++ flat_map (relevant_of name w) after)%list
       /\ forall msg : Message,
            msg ∈ messages other ->
            {| rel_agent := ann_agent_name ann; rel_task := task_ref ann;
               rel_message := msg; rel_notes := notes ann |} ∈ r.
Proof.
  intros Hanns Hts Hne Hload.
  assert (Hother : context_files w !! context_path (platform w)
                                        (ann_agent_name ann) = Some other).
  { unfold load_context, bind, get, ret in Hload. simpl in Hload.
    now injection Hload. }
  assert (Hall : forall msg, same_day ann msg = true)
    by (intros msg; now apply same_day_no_timestamp).
  split; [exact Hall|].
  eexists. split; [|split; [reflexivity|]].
  - unfold get_relevant_context, bind, get. rewrite Hanns.
    rewrite relevant_loop_run. simpl.
    rewrite flat_map_app. simpl. do 3 f_equal.
    unfold relevant_of. rewrite bool_decide_true by assumption.
    rewrite Hother. now rewrite filter_all.
  - intros msg Hmsg. rewrite !elem_of_app. right. left.
    apply list_elem_of_fmap. now exists msg.
Qed.

Lemma C10_empty_timestamp_matches_all_witness :
  get_relevant_context "agent-9" "src/a.ts" relevance_world
  = (Return
       [ {| rel_agent := "agent-1"; rel_task := "";
            rel_message :=
              {| msg_role := "user"; msg_content := "first";
                 msg_timestamp := Some "2025-01-01T10:00:02";
                 msg_tokens := Some 10 |};
            rel_notes := "" |};
         {| rel_agent := "agent-1"; rel_task := "";
            rel_message :=
              {| msg_role := "assistant"; msg_content := "second";
                 msg_timestamp := Some "2025-03-07T08:30:00";
                 msg_tokens := Some 20 |};
            rel_notes := "" |} ],
     relevance_world).
Proof.
  destruct (C10_empty_timestamp_matches_all relevance_world "agent-9"
              "src/a.ts" [] [] bare_annotation other_context)
    as [_ (r & Hrun & Hr & _)].
  - vm_compute. reflexivity.
  - reflexivity.
  - discriminate.
  - vm_compute. reflexivity.
  - rewrite Hrun, Hr. reflexivity.
Defined.

(** ** Scanning and the index *)

Lemma updated_same w : updated w (annotations w) (stdout w) = w.
Proof. now destruct w. Qed.

Lemma scan_code_annotations_run path w :
  scan_code_annotations path w
  = (Return (scan_result (source_files w) path),
     updated w (annotations w)
             (stdout w ++ scan_errors (source_files w) path)).
Proof.
  unfold scan_code_annotations, scan_result, scan_errors, bind, get.
  destruct (scan_try path (source_files w !! path)) as [found [e|]]; simpl.
  - reflexivity.
  - unfold ret. now rewrite app_nil_r, updated_same.
Qed.

Lemma scan_files_run walk : forall w,
  scan_files walk w
  = (Return tt,
     updated w (index_after (source_files w) walk (annotations w))
             (stdout w ++ walk_log (source_files w) walk)).
Proof.
  induction walk as [|path walk IH]; intros w; simpl.
  - unfold ret. now rewrite app_nil_r, updated_same.
  - unfold index_step. destruct (skipped path); [apply IH|].
    unfold bind at 1. rewrite scan_code_annotations_run.
    destruct (scan_result (source_files w) path) as [|ann found] eqn:Hscan.
    + unfold bind, ret. rewrite IH. simpl. now rewrite <- app_assoc.
    + unfold bind, get, set_annotations. rewrite IH. simpl.
      now rewrite <- app_assoc.
Qed.

Lemma update_annotations_index_run walk w :
  exists w',
    update_annotations_index walk w = (Return tt, w')
    /\ annotations w' = index_after (source_files w) walk (annotations w)
    /\ annotations_file w' = Some (annotations w')
    /\ stdout w'
       = (stdout w ++ [Scanning] ++ walk_log (source_files w) walk
          ++ [Found (count_annotations (annotations w'))])%list.
Proof.
  unfold update_annotations_index, _save_annotations.
  unfold bind at 1. unfold print at 1.
  unfold bind at 1. rewrite scan_files_run.
  eexists. split; [reflexivity|]. simpl.
  repeat split. now rewrite <- !app_assoc.
Qed.

Lemma index_step_lookup files index path p :
  index_step files index path !! p
  = if bool_decide (p = path) && negb (skipped p)
       && match scan_result files p with [] => false | _ => true end
    then Some (scan_result files p)
    else index !! p.
Proof.
  unfold index_step. destruct (decide (p = path)) as [->|Hne].
  - rewrite bool_decide_true by reflexivity. simpl.
    destruct (skipped path); simpl; [reflexivity|].
    destruct (scan_result files path); [reflexivity|].
    now rewrite lookup_insert_eq.
  - rewrite bool_decide_false by assumption. simpl.
    destruct (skipped path); [reflexivity|].
    destruct (scan_result files path); [reflexivity|].
    now rewrite lookup_insert_ne.
Qed.

Lemma index_after_lookup files walk : forall index p,
  index_after files walk index !! p
  = if indexed files walk p then Some (scan_result files p) else index !! p.
Proof.
  unfold indexed.
  induction walk as [|path walk IH]; intros index p.
  - rewrite bool_decide_false by apply not_elem_of_nil. reflexivity.
  - change (index_after files (path :: walk) index)
      with (index_after files walk (index_step files index path)).
    rewrite IH, index_step_lookup.
    destruct (negb (skipped p)
              && match scan_result files p with [] => false | _ => true end)
      eqn:Hp.
    + apply andb_true_iff in Hp as [-> ->]. rewrite !andb_true_r.
      destruct (decide (p = path)) as [->|Hne].
      * rewrite (bool_decide_true (path ∈ path :: walk)) by (apply elem_of_cons; now left).
        rewrite (bool_decide_true (path = path)) by reflexivity.
        now destruct (bool_decide (path ∈ walk)).
      * rewrite (bool_decide_false (p = path)) by assumption.
        destruct (decide (p ∈ walk)) as [Hin|Hnin].
        -- rewrite !bool_decide_true; [reflexivity| |assumption].
           apply elem_of_cons. now right.
        -- rewrite !bool_decide_false; [reflexivity| |assumption].
           rewrite elem_of_cons. tauto.
    + assert (Hf : forall b, b && negb (skipped p)
                   && match scan_result files p with [] => false | _ => true end
                   = false).
      { intros b. rewrite <- andb_assoc, Hp. apply andb_false_r. }
      now rewrite !Hf.
Qed.

Lemma scan_loop_undecodable path yielded : forall line_num iter found,
  scan_loop path (open_text (Undecodable yielded)) line_num iter found
  = (found, Some UnicodeDecodeError).
Proof.
  intros line_num iter. revert line_num.
  induction iter as [|line iter IH]; intros line_num found; simpl.
  - reflexivity.
  - destruct (contains "@agent:" line); [|apply IH].
    destruct (re_search "@agent:" non_space line); [reflexivity|apply IH].
Qed.

Lemma scan_try_fails path f :
  read_fails f -> exists e, scan_try path f = ([], Some e).
Proof.
  destruct f as [[content|yielded]|]; simpl; intros H.
  - contradiction.
  - exists UnicodeDecodeError. apply scan_loop_undecodable.
  - now exists (FileNotFoundError path).
Qed.

Lemma index_after_app files walk1 walk2 index :
  index_after files (walk1 ++ walk2) index
  = index_after files walk2 (index_after files walk1 index).
Proof. unfold index_after. apply fold_left_app. Qed.

(** C7: when opening or decoding a file fails, [scan_code_annotations]
    returns no annotation, prints the error and does not raise; and
    [update_annotations_index] over a walk that holds the path returns,
    with the index it gives for the walk without that path. *)
Theorem C7_failing_file_is_passed_over (w : World) (path : string) :
  read_fails (source_files w !! path) ->
  exists e : exn,
    scan_code_annotations path w
    = (Return [], snd (print (ErrorScanning path e) w))
    /\ forall walk1 walk2 : list string,
         exists w1 w2 : World,
           update_annotations_index (walk1 ++ path :: walk2) w = (Return tt, w1)
           /\ update_annotations_index (walk1 ++ walk2) w = (Return tt, w2)
           /\ annotations w1 = annotations w2
           /\ (skipped path = false -> ErrorScanning path e ∈ stdout w1).
Proof.
  intros Hfail. destruct (scan_try_fails path _ Hfail) as [e He].
  assert (Hres : scan_result (source_files w) path = [])
    by (unfold scan_result; now rewrite He).
  assert (Herr : scan_errors (source_files w) path = [ErrorScanning path e])
    by (unfold scan_errors; now rewrite He).
  exists e. split.
  - rewrite scan_code_annotations_run, Hres, Herr. reflexivity.
  - intros walk1 walk2.
    destruct (update_annotations_index_run (walk1 ++ path :: walk2) w)
      as (w1 & Hrun1 & Hidx1 & _ & Hout1).
    destruct (update_annotations_index_run (walk1 ++ walk2) w)
      as (w2 & Hrun2 & Hidx2 & _).
    exists w1, w2. repeat (split; [assumption|]). split.
    + rewrite Hidx1, Hidx2, !index_after_app.
      change (index_after (source_files w) (path :: walk2) ?i)
        with (index_after (source_files w) walk2
                (index_step (source_files w) i path)).
      unfold index_step. rewrite Hres. now destruct (skipped path).
    + intros Hskip. rewrite Hout1. unfold walk_log.
      rewrite flat_map_app. simpl. rewrite Hskip, Herr.
      repeat (rewrite elem_of_app || rewrite elem_of_cons). tauto.
Qed.

Lemma C7_failing_file_is_passed_over_witness :
  exists e : exn,
    scan_code_annotations "src/bad.ts" broken_world
    = (Return [], snd (print (ErrorScanning "src/bad.ts" e) broken_world))
    /\ exists w1 : World,
         update_annotations_index ["src/bad.ts"; "src/b.ts"] broken_world
         = (Return tt, w1)
         /\ map line_number (default [] (annotations w1 !! "src/b.ts")) = [1%nat].
Proof.
  destruct (C7_failing_file_is_passed_over broken_world "src/bad.ts")
    as (e & Hscan & Hwalk); [vm_compute; exact I|].
  exists e. split; [exact Hscan|].
  destruct (Hwalk [] ["src/b.ts"]) as (w1 & w2 & Hrun1 & Hrun2 & Hidx & _).
  exists w1. split; [exact Hrun1|].
  rewrite Hidx. simpl in Hrun2.
  assert (Hw2 : w2 = snd (update_annotations_index ["src/b.ts"] broken_world))
    by now rewrite Hrun2.
  rewrite Hw2. vm_compute. reflexivity.
Defined.

(** C4, as amended: [update_annotations_index] leaves the index it found
    with, for every path of the walk that is not skipped and whose scan
    finds at least one annotation, the entry of that path replaced by the
    result of the scan; every other entry stays as it was, so a file whose
    scan finds nothing has an entry exactly when it had one before.  The
    index is then written to the annotations file.  From an empty index the
    result is the union of the scans of the walk, keyed by path. *)
Theorem C4_index_updated_in_place (w : World) (walk : list string) :
  exists w' : World,
    update_annotations_index walk w = (Return tt, w')
    /\ (forall p : string,
          annotations w' !! p
          = if indexed (source_files w) walk p
            then Some (scan_result (source_files w) p)
            else annotations w !! p)
    /\ annotations_file w' = Some (annotations w')
    /\ (annotations w = ∅ ->
        annotations w' = rebuilt_index (source_files w) walk).
Proof.
  destruct (update_annotations_index_run walk w)
    as (w' & Hrun & Hidx & Hfile & _).
  exists w'. split; [exact Hrun|]. split; [|split; [exact Hfile|]].
  - intros p. rewrite Hidx. apply index_after_lookup.
  - intros Hempty. rewrite Hidx, Hempty. reflexivity.
Qed.

Lemma C4_index_updated_in_place_witness :
  exists w' : World,
    update_annotations_index ["src/bad.ts"; "src/b.ts"] broken_world
    = (Return tt, w')
    /\ annotations w'
       = rebuilt_index (source_files broken_world) ["src/bad.ts"; "src/b.ts"].
Proof.
  destruct (C4_index_updated_in_place broken_world ["src/bad.ts"; "src/b.ts"])
    as (w' & Hrun & _ & _ & Hempty).
  exists w'. split; [exact Hrun|]. apply Hempty. reflexivity.
Defined.

(** C4, as stated, fails: on a second run the file [src/a.ts] carries no
    annotation any more, yet the entry read from the annotations file stays
    in the index, which is then not the union of the scans of the walk. *)
Lemma C4_stale_entry_survives :
  let walk := ["src/a.ts"; "src/b.ts"] in
  let w' := snd (update_annotations_index walk stale_world) in
  fst (update_annotations_index walk stale_world) = Return tt
  /\ fst (scan_code_annotations "src/a.ts" stale_world) = Return []
  /\ annotations w' !! "src/a.ts" = Some [old_annotation]
  /\ rebuilt_index (source_files stale_world) walk !! "src/a.ts" = None
  /\ annotations w' <> rebuilt_index (source_files stale_world) walk.
Proof.
  intros walk w'.
  assert (Hold : annotations w' !! "src/a.ts" = Some [old_annotation])
    by (vm_compute; reflexivity).
  assert (Hnew : rebuilt_index (source_files stale_world) walk !! "src/a.ts"
                 = None) by (vm_compute; reflexivity).
  repeat split; try (vm_compute; reflexivity); try assumption.
  intros Heq. rewrite Heq, Hnew in Hold. discriminate.
Qed.

(** ** The look-ahead window *)

Lemma look_ahead_seq lines : forall k n fields,
  (n + k <= length lines)%nat ->
  look_ahead lines (seq n k) fields
  = look_ahead_lines (take k (drop n lines)) fields.
Proof.
  induction k as [|k IH]; intros n fields Hlen; [reflexivity|].
  destruct (lookup_lt_is_Some_2 lines n ltac:(lia)) as [line Hline].
  rewrite (drop_S _ _ _ Hline). cbn [seq look_ahead take look_ahead_lines].
  rewrite Hline. destruct (look_ahead_line line fields); [|reflexivity].
  apply IH. lia.
Qed.

Lemma look_ahead_window lines n fields :
  (n <= length lines)%nat ->
  look_ahead lines (range n (Nat.min (n + 5) (length lines))) fields
  = look_ahead_lines (take 5 (drop n lines)) fields.
Proof.
  intros Hn. unfold range. rewrite look_ahead_seq by lia. f_equal.
  destruct (Nat.le_ge_cases (n + 5) (length lines)) as [Hle|Hge].
  - rewrite Nat.min_l by assumption. f_equal. lia.
  - rewrite Nat.min_r by assumption.
    rewrite !take_ge; [reflexivity|rewrite length_drop; lia..].
Qed.





Lemma scan_loop_no_anchor path f before : forall line_num rest found,
  no_anchor before = true ->
  scan_loop path f line_num (before ++ rest) found
  = scan_loop path f (line_num + length before) rest found.
Proof.
  induction before as [|line before IH]; intros line_num rest found Hno.
  - simpl. f_equal. lia.
  - cbn [no_anchor forallb] in Hno. apply andb_true_iff in Hno as [Hl Hno].
    unfold anchor in Hl. cbn [app scan_loop].
    replace (line_num + length (line :: before))%nat
      with (S line_num + length before)%nat by (simpl; lia).
    destruct (contains "@agent:" line); [|now apply IH].
    destruct (re_search "@agent:" non_space line); [discriminate|now apply IH].
Qed.

Lemma drop_past_anchor (before after : list string) (line : string) :
  drop (S (length before)) (before ++ line :: after) = after.
Proof. induction before as [|l before IH]; [reflexivity|exact IH]. Qed.

Lemma scan_try_first_anchor path content before line after name :
  readlines content = (before ++ line :: after)%list ->
  no_anchor before = true ->
  anchor line = Some name ->
  scan_try path (Some (Text content))
  = match look_ahead_lines (take 5 after) ("", "", "") with
    | Raise e => ([], Some e)
    | Return (timestamp, task, note) =>
        ([{| ann_file_path := path; line_number := S (length before);
             ann_agent_name := name; ann_timestamp := timestamp;
             task_ref := task; notes := note |}], None)
    end.
Proof.
  intros Hlines Hno Hanchor. unfold scan_try.
  set (f := open_text (Text content)).
  assert (Hall : all_lines f = Return (before ++ line :: after)%list)
    by (subst f; simpl; now rewrite Hlines).
  replace (iter_lines f) with (before ++ line :: after)%list
    by (subst f; simpl; now rewrite Hlines).
  clearbody f. rewrite scan_loop_no_anchor by assumption.
  cbn [scan_loop]. unfold anchor in Hanchor.
  destruct (contains "@agent:" line); [|discriminate].
  rewrite Hanchor, Hall.
  rewrite look_ahead_window by (rewrite length_app; simpl; lia).
  change (1 + length before)%nat with (S (length before)).
  rewrite drop_past_anchor.
  destruct (look_ahead_lines (take 5 after) ("", "", "")) as [[[t k] n]|e];
    reflexivity.
Qed.




(** * Further properties of the context store *)

Lemma trim_loop_step target_tokens c :
  trim_loop target_tokens c
  = if trim_guard target_tokens c
    then trim_loop target_tokens (trim_body c)
    else c.
Proof.
  funelim (trim_loop target_tokens c).
  - now rewrite Hguard.
  - match goal with H : trim_guard _ _ = false |- _ => now rewrite H end.
Qed.

Lemma trim_loop_exit target_tokens c :
  trim_guard target_tokens (trim_loop target_tokens c) = false.
Proof.
  funelim (trim_loop target_tokens c); assumption.
Qed.

Lemma trim_loop_within_budget c :
  max_tokens c = 200000 -> within_budget (trim_loop (max_tokens c - 20000) c).
Proof.
  intros Hmax. unfold within_budget.
  destruct (trim_loop_fields (max_tokens c - 20000) c) as (_ & _ & _ & Hm).
  rewrite Hm. split; [exact Hmax|].
  destruct (trim_loop_removes (max_tokens c - 20000) c)
    as (k & _ & _ & _ & _ & [Hle|Hlen]); [left; lia|now right].
Qed.

Lemma after_add_within_budget c role content tokens now :
  within_budget c -> within_budget (after_add c role content tokens now).
Proof.
  intros [Hmax _]. unfold after_add.
  destruct (bool_decide (current_tokens (appended c role content tokens now)
                         > max_tokens (appended c role content tokens now)))
    eqn:Hover.
  - now apply trim_loop_within_budget.
  - apply bool_decide_eq_false in Hover. split; [exact Hmax|left; lia].
Qed.

(** X1: after every sequence of calls on a new manager, every registered
    agent has [max_tokens = 200000] and either a counter of at most 200000
    or at most one message: an agent is over budget only when a single
    message is left. *)
Theorem X1_budget_kept (w0 : World) (ops : list op) (name : string)
    (c : AgentContext) :
  agents (exec ops (new_manager w0)) !! name = Some c ->
  max_tokens c = 200000
  /\ (current_tokens c <= 200000 \/ (length (messages c) <= 1)%nat).
Proof.
  intros Hc.
  assert (Hb : within_budget c).
  { apply (exec_registry_has within_budget) with (5 := Hc).
    - intros. split; [reflexivity|left; simpl; lia].
    - intros. now apply after_add_within_budget.
    - intros c0 [Hmax _]. now apply trim_loop_within_budget.
    - apply new_manager_registry_has. }
  destruct Hb as [Hmax Hb]. rewrite Hmax in Hb. now split.
Qed.

Lemma X1_budget_kept_witness :
  exists c : AgentContext,
    agents (exec (example_setup ++ [example_last]) (new_manager empty_world))
      !! "agent-1" = Some c
    /\ max_tokens c = 200000
    /\ (current_tokens c <= 200000 \/ (length (messages c) <= 1)%nat).
Proof.
  eexists. split; [vm_compute; reflexivity|].
  apply (X1_budget_kept empty_world (example_setup ++ [example_last])
           "agent-1").
  vm_compute. reflexivity.
Defined.

(** X2: a call changes the record of no agent other than the one it
    names, and no context file other than the file of the agent it names,
    whether it returns or raises. *)
Theorem X2_other_agents_untouched (o : op) (w : World) :
  (forall name : string,
     name <> op_name o ->
     agents (snd (run_op o w)) !! name = agents w !! name)
  /\ (forall file : string,
        file <> context_path (platform w) (op_name o) ->
        context_files (snd (run_op o w)) !! file = context_files w !! file).
Proof.
  destruct (run_op_cases o w) as [->|(c' & Hst & _)]; [now split|].
  unfold stores in Hst. injection Hst as _ Hag Hfi. split.
  - intros name Hne. rewrite Hag. now rewrite lookup_insert_ne by congruence.
  - intros file Hne. rewrite Hfi, saved_lookup.
    rewrite (bool_decide_false (file = file_of w (op_name o))) by assumption.
    now rewrite andb_false_r.
Qed.

Lemma X2_other_agents_untouched_witness :
  agents (snd (run_op (Register "agent-4" "task-4.md" "2025-01-01T11:00:00")
                      three_message_world)) !! "agent-3"
  = Some three_message_context
  /\ context_files
       (snd (run_op (Register "agent-4" "task-4.md" "2025-01-01T11:00:00")
                    three_message_world)) !! "agent-3.json"
     = Some three_message_context.
Proof.
  destruct (X2_other_agents_untouched
              (Register "agent-4" "task-4.md" "2025-01-01T11:00:00")
              three_message_world) as [Hag Hfi].
  rewrite Hag by discriminate. rewrite Hfi by discriminate.
  split; reflexivity.
Defined.

(** X3: [add_message] trims only when the new counter is strictly above
    [max_tokens]: when it is at most [max_tokens] (the limit itself
    included) the message is appended to the record in the registry,
    nothing is removed and nothing is printed; the call returns with the
    record saved when the context file can be written, and raises the error
    of the write, the files unchanged, when it cannot. *)
Theorem X3_no_trim_up_to_the_limit (w : World) (name role content : string)
    (tokens : Z) (now : string) (c : AgentContext) :
  agents w !! name = Some c ->
  current_tokens c + tokens <= max_tokens c ->
  exists w' : World,
    add_message name role content tokens now w
    = (if writable (platform w) (context_path (platform w) name)
       then Return tt
       else Raise (write_error (platform w) (context_path (platform w) name)),
       w')
    /\ agents w' !! name = Some (appended c role content tokens now)
    /\ context_files w'
       = (if writable (platform w) (context_path (platform w) name)
          then <[context_path (platform w) name
                 := appended c role content tokens now]> (context_files w)
          else context_files w)
    /\ stdout w' = stdout w.
Proof.
  intros Hc Hle. unfold add_message, bind, get. rewrite Hc.
  unfold set_agent. simpl.
  rewrite bool_decide_false by lia.
  unfold ret. simpl. rewrite lookup_insert_eq.
  unfold _save_context, bind, get. simpl.
  destruct (writable (platform w) (context_path (platform w) name));
    eexists; (split; [reflexivity|]); simpl;
    rewrite lookup_insert_eq; repeat split.
Qed.

Lemma X3_no_trim_up_to_the_limit_witness :
  exists w' : World,
    add_message "agent-3" "user" "fits" 49000 "2025-01-01T10:00:04"
      three_message_world = (Return tt, w')
    /\ agents w' !! "agent-3"
       = Some (appended three_message_context "user" "fits" 49000
                 "2025-01-01T10:00:04")
    /\ context_files w' !! "agent-3.json"
       = Some (appended three_message_context "user" "fits" 49000
                 "2025-01-01T10:00:04")
    /\ stdout w' = stdout three_message_world.
Proof.
  destruct (X3_no_trim_up_to_the_limit three_message_world "agent-3" "user"
              "fits" 49000 "2025-01-01T10:00:04" three_message_context)
    as (w' & Hrun & Hag & Hfi & Hout).
  - vm_compute. reflexivity.
  - vm_compute. discriminate.
  - exists w'. split; [exact Hrun|]. split; [exact Hag|].
    split; [|exact Hout]. rewrite Hfi. vm_compute. reflexivity.
Defined.

Lemma token_sum_nonneg ms : costs_nonneg ms -> 0 <= token_sum ms.
Proof.
  induction 1 as [|m ms Hm _ IH]; simpl; lia.
Qed.

Lemma trim_guard_over target_tokens c m0 m1 l :
  messages c = m0 :: m1 :: l -> current_tokens c > target_tokens ->
  trim_guard target_tokens c = true.
Proof.
  intros Hms Hover. unfold trim_guard. rewrite Hms.
  apply andb_true_iff. split; apply bool_decide_eq_true; simpl; lia.
Qed.

Lemma trim_guard_single target_tokens c m0 :
  messages c = [m0] -> trim_guard target_tokens c = false.
Proof.
  intros Hms. unfold trim_guard. rewrite Hms.
  apply andb_false_iff. right. apply bool_decide_eq_false. simpl. lia.
Qed.

Lemma trim_body_second c m0 m1 l :
  messages c = m0 :: m1 :: l ->
  messages (trim_body c) = m0 :: l
  /\ current_tokens (trim_body c) = current_tokens c - get_tokens m1.
Proof.
  intros Hms. unfold trim_body, list_pop. rewrite Hms. now split.
Qed.

(** When even the last message is removed while the counter is above the
    target, the loop removes everything after the first message. *)
Lemma trim_loop_removes_all target_tokens (m0 final : Message)
    (l : list Message) : forall c,
  messages c = (m0 :: l ++ [final])%list ->
  costs_nonneg l ->
  current_tokens c - token_sum l > target_tokens ->
  messages (trim_loop target_tokens c) = [m0]
  /\ current_tokens (trim_loop target_tokens c)
     = current_tokens c - token_sum l - get_tokens final.
Proof.
  induction l as [|m1 l IH]; intros c Hms Hcost Hover.
  - simpl in *. rewrite trim_loop_step.
    rewrite (trim_guard_over _ _ _ _ _ Hms) by lia.
    destruct (trim_body_second _ _ _ _ Hms) as [Hms' Htok'].
    rewrite trim_loop_step, (trim_guard_single _ _ _ Hms').
    split; [exact Hms'|lia].
  - inversion Hcost as [|? ? Hm1 Hl]; subst.
    pose proof (token_sum_nonneg _ Hl) as Hsum.
    simpl in Hover, Hms. rewrite trim_loop_step.
    rewrite (trim_guard_over _ _ _ _ _ Hms) by lia.
    destruct (trim_body_second _ _ _ _ Hms) as [Hms' Htok'].
    destruct (IH (trim_body c)) as [Hres Htok].
    + exact Hms'.
    + exact Hl.
    + lia.
    + split; [exact Hres|]. rewrite Htok. simpl. lia.
Qed.

(** X4: a message too large to fit with the first message is dropped as
    soon as it is added.  For an agent whose counter is the sum of its
    costs, none of them negative after the first, when the new counter is
    above [max_tokens] and the first message plus the new one are above
    [max_tokens - 20000], [add_message] leaves the first message only in
    the registry; the new message is not kept.  No error is raised for it:
    the call returns with that record saved when the context file can be
    written, and raises the error of the write when it cannot. *)
Theorem X4_oversized_message_is_dropped (w : World)
    (name role content : string) (tokens : Z) (now : string)
    (c : AgentContext) (m0 : Message) (rest : list Message) :
  agents w !! name = Some c ->
  messages c = m0 :: rest ->
  current_tokens c = token_sum (messages c) ->
  costs_nonneg rest ->
  current_tokens c + tokens > max_tokens c ->
  get_tokens m0 + tokens > max_tokens c - 20000 ->
  exists (w' : World) (c' : AgentContext),
    add_message name role content tokens now w
    = (if writable (platform w) (context_path (platform w) name)
       then Return tt
       else Raise (write_error (platform w) (context_path (platform w) name)),
       w')
    /\ agents w' !! name = Some c'
    /\ context_files w'
       = (if writable (platform w) (context_path (platform w) name)
          then <[context_path (platform w) name := c']> (context_files w)
          else context_files w)
    /\ messages c' = [m0]
    /\ current_tokens c' = get_tokens m0.
Proof.
  intros Hc Hms Hsum Hcost Htrig Hbig.
  destruct (add_message_run name role content tokens now w c Hc)
    as (w' & Hrun & Hst).
  apply stores_lookup in Hst as (Hag & Hfi & _).
  exists w', (after_add c role content tokens now).
  split; [exact Hrun|]. split; [exact Hag|]. split; [exact Hfi|].
  unfold after_add. rewrite bool_decide_true by (simpl; lia).
  rewrite Hms in Hsum. simpl in Hsum.
  destruct (trim_loop_removes_all
              (max_tokens (appended c role content tokens now) - 20000)
              m0 {| msg_role := role; msg_content := content;
                    msg_timestamp := Some now; msg_tokens := Some tokens |}
              rest (appended c role content tokens now)) as [Hres Htok].
  - simpl. now rewrite Hms.
  - exact Hcost.
  - simpl. lia.
  - split; [exact Hres|]. rewrite Htok. unfold get_tokens in *. simpl. lia.
Qed.

Lemma X4_oversized_message_is_dropped_witness :
  exists (w' : World) (c' : AgentContext),
    add_message "agent-3" "user" "huge" 185000 "2025-01-01T10:00:04"
      three_message_world = (Return tt, w')
    /\ agents w' !! "agent-3" = Some c'
    /\ context_files w' !! "agent-3.json" = Some c'
    /\ messages c' = take 1 (messages three_message_context)
    /\ current_tokens c' = 1000.
Proof.
  destruct (X4_oversized_message_is_dropped three_message_world "agent-3"
              "user" "huge" 185000 "2025-01-01T10:00:04" three_message_context
              {| msg_role := "system"; msg_content := "rules";
                 msg_timestamp := Some "2025-01-01T10:00:01";
                 msg_tokens := Some 1000 |}
              (drop 1 (messages three_message_context)))
    as (w' & c' & Hrun & Hag & Hfi & Hms & Htok).
  - vm_compute. reflexivity.
  - reflexivity.
  - vm_compute. reflexivity.
  - repeat constructor; vm_compute; discriminate.
  - vm_compute. reflexivity.
  - vm_compute. reflexivity.
  - exists w', c'. split; [exact Hrun|]. split; [exact Hag|].
    split; [|split; [exact Hms|exact Htok]].
    rewrite Hfi. simpl. apply lookup_insert_eq.
Defined.

Lemma trim_loop_idempotent target_tokens c :
  trim_loop target_tokens (trim_loop target_tokens c)
  = trim_loop target_tokens c.
Proof.
  rewrite (trim_loop_step _ (trim_loop target_tokens c)).
  now rewrite trim_loop_exit.
Qed.

(** X5: trimming twice is trimming once: a second [_trim_context] has
    the outcome of the first and leaves the registry and the context files
    as the first one left them; and trimming an agent whose counter is at
    most [max_tokens - 20000] leaves the registry as it was and saves the
    record as it is.  The outcome is a normal return when the context file
    can be written and the exception of the failed write, with no file
    changed, when it cannot. *)
Theorem X5_trim_twice_is_trim_once (w : World) (name : string)
    (c : AgentContext) :
  agents w !! name = Some c ->
  exists w1 w2 : World,
    _trim_context name w
    = (if writable (platform w) (context_path (platform w) name)
       then Return tt
       else Raise (write_error (platform w) (context_path (platform w) name)),
       w1)
    /\ fst (_trim_context name w1) = fst (_trim_context name w)
    /\ w2 = snd (_trim_context name w1)
    /\ agents w2 = agents w1
    /\ context_files w2 = context_files w1
    /\ (current_tokens c <= max_tokens c - 20000 ->
        agents w1 = agents w
        /\ context_files w1
           = if writable (platform w) (context_path (platform w) name)
             then <[context_path (platform w) name := c]> (context_files w)
             else context_files w).
Proof.
  intros Hc.
  destruct (_trim_context_run name w c Hc) as (w1 & Hrun1 & Hst1).
  pose proof (stores_lookup _ _ _ _ _ _ Hst1) as (Hc1 & Hfi1 & Hpl1).
  destruct (_trim_context_run name w1 _ Hc1) as (w2 & Hrun2 & Hst2).
  exists w1, w2. split; [exact Hrun1|].
  unfold stores in Hst1, Hst2.
  injection Hst1 as _ Hag1 _. injection Hst2 as _ Hag2 Hfi2.
  destruct (trim_loop_fields (max_tokens c - 20000) c) as (_ & _ & _ & Hmax).
  rewrite Hmax, trim_loop_idempotent in Hag2, Hfi2.
  assert (Hout : save_outcome w1 name = save_outcome w name)
    by (unfold save_outcome, file_of; now rewrite Hpl1).
  split; [now rewrite Hrun1, Hrun2, Hout|].
  split; [now rewrite Hrun2|]. split; [|split].
  - rewrite Hag2, Hag1. apply insert_insert_eq.
  - rewrite Hfi2. unfold saved, file_of. rewrite Hpl1, Hfi1.
    unfold saved, file_of.
    destruct (writable (platform w) (context_path (platform w) name));
      [apply insert_insert_eq|reflexivity].
  - intros Hle.
    assert (Hsame : trim_loop (max_tokens c - 20000) c = c).
    { rewrite trim_loop_step. unfold trim_guard.
      rewrite bool_decide_false by lia. reflexivity. }
    rewrite Hsame in Hag1, Hfi1. split.
    + rewrite Hag1. now apply insert_id.
    + exact Hfi1.
Qed.

Lemma X5_trim_twice_is_trim_once_witness :
  exists w1 w2 : World,
    _trim_context "agent-3" three_message_world = (Return tt, w1)
    /\ w2 = snd (_trim_context "agent-3" w1)
    /\ agents w2 = agents w1
    /\ context_files w2 = context_files w1
    /\ agents w1 = agents three_message_world
    /\ context_files w1 !! "agent-3.json" = Some three_message_context.
Proof.
  destruct (X5_trim_twice_is_trim_once three_message_world "agent-3"
              three_message_context)
    as (w1 & w2 & H1 & _ & H2 & H3 & H4 & H5);
    [vm_compute; reflexivity|].
  destruct H5 as [H5 H6]; [vm_compute; discriminate|].
  exists w1, w2. repeat (split; [assumption|]).
  rewrite H6. vm_compute. reflexivity.
Defined.

(** X6: the registry does not survive a restart.  A manager started on
    the files an earlier run left has an empty registry: [load_context]
    answers as it did before the restart, but for every agent name
    [add_message] raises ValueError and [_trim_context] raises KeyError,
    the state unchanged.  Registering the name again puts a record with no
    message and a zero counter in the registry and, when the context file
    of the name can be written, overwrites what was saved there: that
    record is what [load_context] returns afterwards. *)
Theorem X6_registry_lost_on_restart (w1 : World)
    (name role content : string) (tokens : Z) (task now : string) :
  let w := new_manager w1 in
  let fresh := {| agent_name := name; timestamp := now; task_file := task;
                  current_tokens := 0; max_tokens := 200000;
                  messages := [] |} in
  fst (load_context name w) = fst (load_context name w1)
  /\ add_message name role content tokens now w
     = (Raise (ValueError ("Agent " ++ name ++ " not registered")), w)
  /\ _trim_context name w = (Raise (KeyError name), w)
  /\ exists w' : World,
       register_agent name task now w
       = (if writable (platform w) (context_path (platform w) name)
          then Return tt
          else Raise (write_error (platform w)
                        (context_path (platform w) name)), w')
       /\ agents w' !! name = Some fresh
       /\ (writable (platform w) (context_path (platform w) name) = true ->
           fst (load_context name w') = Return (Some fresh))
       /\ (writable (platform w) (context_path (platform w) name) = false ->
           fst (load_context name w') = fst (load_context name w1)).
Proof.
  intros w fresh.
  assert (Hnone : agents w !! name = None) by apply lookup_empty.
  split; [reflexivity|]. split; [now apply add_message_unknown|].
  split; [now apply _trim_context_unknown|].
  destruct (register_agent_run name task now w) as (w' & Hrun & Hst).
  apply stores_lookup in Hst as (Hag & Hfi & Hpl).
  exists w'. split; [exact Hrun|]. split; [exact Hag|].
  unfold load_context, bind, get, ret. cbn [fst snd].
  rewrite Hpl, Hfi. unfold saved, file_of.
  split; intros Hwr; rewrite Hwr; [|reflexivity].
  now rewrite lookup_insert_eq.
Qed.

Lemma X6_registry_lost_on_restart_witness :
  let w1 := exec (example_setup ++ [example_last]) (new_manager empty_world) in
  let w := new_manager w1 in
  (exists c, fst (load_context "agent-1" w) = Return (Some c)
             /\ length (messages c) = 3%nat)
  /\ add_message "agent-1" "user" "more" 10 "2025-01-02T08:00:00" w
     = (Raise (ValueError "Agent agent-1 not registered"), w)
  /\ _trim_context "agent-1" w = (Raise (KeyError "agent-1"), w)
  /\ exists c,
       fst (load_context "agent-1"
              (snd (register_agent "agent-1" "task-1.md"
                      "2025-01-02T08:00:00" w))) = Return (Some c)
       /\ messages c = [].
Proof.
  intros w1 w. subst w.
  destruct (X6_registry_lost_on_restart w1 "agent-1" "user" "more" 10
              "task-1.md" "2025-01-02T08:00:00")
    as (Hload & Hadd & Htrim & w' & Hrun & _ & Hwr & _).
  split; [|split; [exact Hadd|split; [exact Htrim|]]].
  - eexists. rewrite Hload. split; vm_compute; reflexivity.
  - eexists. rewrite Hrun. cbn [snd].
    rewrite Hwr; [|vm_compute; reflexivity]. split; reflexivity.
Defined.

(** * Further properties of the annotation index *)

(** The scan writes the index, its file and the output, nothing else. *)
Lemma update_annotations_index_frame walk w :
  exists w',
    update_annotations_index walk w = (Return tt, w')
    /\ annotations w' = index_after (source_files w) walk (annotations w)
    /\ annotations_file w' = Some (annotations w')
    /\ source_files w' = source_files w
    /\ agents w' = agents w
    /\ context_files w' = context_files w
    /\ task_files w' = task_files w.
Proof.
  unfold update_annotations_index, _save_annotations.
  unfold bind at 1. unfold print at 1.
  unfold bind at 1. rewrite scan_files_run.
  eexists. split; [reflexivity|]. simpl. repeat split.
Qed.

Lemma index_after_idempotent files walk index :
  index_after files walk (index_after files walk index)
  = index_after files walk index.
Proof.
  apply map_eq. intros p. rewrite !index_after_lookup.
  now destruct (indexed files walk p).
Qed.

(** X7: the index [update_annotations_index] leaves is the one a manager
    started afterwards loads from the annotations file; a manager started
    without an annotations file has an empty index. *)
Theorem X7_index_survives_restart (w : World) (walk : list string) :
  (exists w' : World,
     update_annotations_index walk w = (Return tt, w')
     /\ annotations (new_manager w') = annotations w')
  /\ (annotations_file w = None -> annotations (new_manager w) = ∅).
Proof.
  split.
  - destruct (update_annotations_index_frame walk w)
      as (w' & Hrun & _ & Hfile & _).
    exists w'. split; [exact Hrun|].
    simpl. unfold _load_annotations. now rewrite Hfile.
  - intros Hnone. simpl. unfold _load_annotations. now rewrite Hnone.
Qed.

Lemma X7_index_survives_restart_witness :
  annotations (new_manager broken_world) = ∅.
Proof.
  apply (proj2 (X7_index_survives_restart broken_world [])). reflexivity.
Defined.

(** X8: scanning the same walk of unchanged files a second time changes
    neither the index nor the annotations file. *)
Theorem X8_rescan_changes_nothing (w : World) (walk : list string) :
  exists w1 w2 : World,
    update_annotations_index walk w = (Return tt, w1)
    /\ update_annotations_index walk w1 = (Return tt, w2)
    /\ annotations w2 = annotations w1
    /\ annotations_file w2 = annotations_file w1.
Proof.
  destruct (update_annotations_index_frame walk w)
    as (w1 & Hrun1 & Hidx1 & Hfile1 & Hsrc1 & _).
  destruct (update_annotations_index_frame walk w1)
    as (w2 & Hrun2 & Hidx2 & Hfile2 & _).
  exists w1, w2. do 2 (split; [assumption|]).
  assert (Hsame : annotations w2 = annotations w1).
  { rewrite Hidx2, Hsrc1, Hidx1. apply index_after_idempotent. }
  split; [exact Hsame|]. now rewrite Hfile2, Hfile1, Hsame.
Qed.

(** X16: the skip test is a substring test on the whole path.  A path that
    contains [node_modules], [dist] or [.git] anywhere, also inside a file
    name, is never scanned: its entry in the index stays as it was,
    whatever the file holds. *)
Theorem X16_skip_is_a_substring_test (w : World) (walk : list string)
    (path : string) :
  contains "node_modules" path = true \/ contains "dist" path = true
  \/ contains ".git" path = true ->
  exists w' : World,
    update_annotations_index walk w = (Return tt, w')
    /\ annotations w' !! path = annotations w !! path.
Proof.
  intros Hskip.
  assert (Hs : skipped path = true).
  { unfold skipped. simpl.
    destruct Hskip as [ H | [ H | H ] ]; rewrite H, ?orb_true_r; reflexivity. }
  destruct (update_annotations_index_frame walk w) as (w' & Hrun & Hidx & _).
  exists w'. split; [exact Hrun|].
  rewrite Hidx, index_after_lookup. unfold indexed. rewrite Hs.
  now rewrite andb_false_r.
Qed.

Lemma X16_skip_is_a_substring_test_witness :
  exists w' : World,
    update_annotations_index ["src/distance.ts"] distance_world
    = (Return tt, w')
    /\ annotations w' !! "src/distance.ts" = None
    /\ length (scan_result (source_files distance_world) "src/distance.ts")
       = 1%nat.
Proof.
  destruct (X16_skip_is_a_substring_test distance_world ["src/distance.ts"]
              "src/distance.ts") as (w' & Hrun & Hsame).
  - right. left. vm_compute. reflexivity.
  - exists w'. split; [exact Hrun|]. split; [|vm_compute; reflexivity].
    rewrite Hsame. reflexivity.
Defined.

(** * Further properties of the scanner *)

Lemma no_anchor_app l1 l2 :
  no_anchor (l1 ++ l2) = no_anchor l1 && no_anchor l2.
Proof. apply forallb_app. Qed.

(** What the scan of a file that decodes can return: nothing, or one
    annotation for the first anchor line. *)
Lemma scan_loop_text path content : forall iter pre,
  readlines content = (pre ++ iter)%list ->
  no_anchor pre = true ->
  let r := fst (scan_loop path (open_text (Text content)) (S (length pre))
                  iter []) in
  r = []
  \/ exists before line after ann,
       r = [ann]
       /\ readlines content = (before ++ line :: after)%list
       /\ no_anchor before = true
       /\ anchor line = Some (ann_agent_name ann)
       /\ line_number ann = S (length before)
       /\ ann_file_path ann = path.
Proof.
  induction iter as [|line iter IH]; intros pre Hlines Hno; [now left|].
  assert (Hnext : forall r,
    anchor line = None ->
    r = fst (scan_loop path (open_text (Text content)) (S (S (length pre)))
               iter []) ->
    r = []
    \/ exists before line0 after ann,
         r = [ann]
         /\ readlines content = (before ++ line0 :: after)%list
         /\ no_anchor before = true
         /\ anchor line0 = Some (ann_agent_name ann)
         /\ line_number ann = S (length before)
         /\ ann_file_path ann = path).
  { intros r Hnone ->.
    specialize (IH (pre ++ [line])%list).
    rewrite length_app, Nat.add_1_r in IH. apply IH.
    - now rewrite <- app_assoc.
    - rewrite no_anchor_app, Hno. simpl. now rewrite Hnone. }
  cbn zeta. cbn [scan_loop]. unfold anchor in Hnext.
  destruct (contains "@agent:" line); [|now apply Hnext].
  destruct (re_search "@agent:" non_space line) as [name|] eqn:Hname;
    [|now apply Hnext].
  cbn [open_text all_lines].
  destruct (look_ahead _ _ _) as [[[t k] n]|e]; [|now left].
  right. exists pre, line, iter. eexists. split; [reflexivity|].
  repeat split; try assumption.
  unfold anchor. simpl.
  destruct (contains "@agent:" line) eqn:Hc; [exact Hname|].
  (* the line holds the literal, since the pattern matched on it *)
  exfalso. clear -Hname Hc.
  induction line as [|a line IHl]; simpl in *; [discriminate|].
  apply orb_false_iff in Hc as [Hp Hc]. rewrite Hp in Hname.
  now apply IHl.
Qed.

Lemma take_class_forallb cls s : string_forallb cls (take_class cls s) = true.
Proof.
  induction s as [|c s IH]; simpl; [reflexivity|].
  destruct (cls c) eqn:Hc; simpl; [now rewrite Hc|reflexivity].
Qed.

Lemma group_plus_shape cls s g :
  group_plus cls s = Some g -> g <> "" /\ string_forallb cls g = true.
Proof.
  unfold group_plus. pose proof (take_class_forallb cls s) as Hall.
  destruct (take_class cls s) as [|c t]; [discriminate|].
  intros [= <-]. now split.
Qed.

Lemma spaces_then_group_shape cls s g :
  spaces_then_group cls s = Some g -> g <> "" /\ string_forallb cls g = true.
Proof.
  induction s as [|c s IH]; simpl; [discriminate|].
  destruct (isspace c).
  - destruct (spaces_then_group cls s) as [g'|].
    + intros [= <-]. now apply IH.
    + apply group_plus_shape.
  - apply group_plus_shape.
Qed.

Lemma re_search_shape lit cls s g :
  re_search lit cls s = Some g -> g <> "" /\ string_forallb cls g = true.
Proof.
  assert (Hhead : forall t g',
    (if String.prefix lit t
     then spaces_then_group cls (string_drop (String.length lit) t)
     else None) = Some g' ->
    g' <> "" /\ string_forallb cls g' = true).
  { intros t g'. destruct (String.prefix lit t); [|discriminate].
    apply spaces_then_group_shape. }
  induction s as [|c s IH]; cbn [re_search].
  - destruct (if String.prefix lit "" then _ else None) as [g'|] eqn:Hg;
      [|discriminate].
    intros [= <-]. now apply Hhead in Hg.
  - destruct (if String.prefix lit (String c s) then _ else None)
      as [g'|] eqn:Hg; [|exact IH].
    intros [= <-]. now apply Hhead in Hg.
Qed.

Lemma scan_try_shape path f :
  fst (scan_try path f) = []
  \/ exists content before line after ann,
       f = Some (Text content)
       /\ fst (scan_try path f) = [ann]
       /\ readlines content = (before ++ line :: after)%list
       /\ no_anchor before = true
       /\ anchor line = Some (ann_agent_name ann)
       /\ line_number ann = S (length before)
       /\ ann_file_path ann = path.
Proof.
  destruct f as [[content|yielded]|]; [| |now left].
  - destruct (scan_loop_text path content (readlines content) [])
      as [Hnil|(before & line & after & ann & H)];
      [reflexivity|reflexivity|now left|].
    right. exists content, before, line, after, ann. now split.
  - left. unfold scan_try. now rewrite scan_loop_undecodable.
Qed.

(** X9: the scan of a file returns at most one annotation, whatever the
    number of anchor lines in the file: it is the annotation of the first
    line that the anchor pattern matches, with the path scanned and the
    number of that line, counted from 1. *)
Theorem X9_one_annotation_per_file (path : string) (f : option file) :
  (length (fst (scan_try path f)) <= 1)%nat
  /\ forall ann : CodeAnnotation,
       ann ∈ fst (scan_try path f) ->
       ann_file_path ann = path
       /\ exists content before line after,
            f = Some (Text content)
            /\ readlines content = (before ++ line :: after)%list
            /\ no_anchor before = true
            /\ anchor line = Some (ann_agent_name ann)
            /\ line_number ann = S (length before).
Proof.
  destruct (scan_try_shape path f)
    as [Hnil|(content & before & line & after & ann0 & Hf & Hr & H)].
  - rewrite Hnil. split; [simpl; lia|]. intros ann Hin.
    now apply elem_of_nil in Hin.
  - rewrite Hr. split; [simpl; lia|]. intros ann Hin.
    apply list_elem_of_singleton in Hin as ->.
    destruct H as (Hlines & Hno & Hanchor & Hnum & Hpath).
    split; [exact Hpath|]. now exists content, before, line, after.
Qed.

Lemma X9_one_annotation_per_file_witness :
  exists ann : CodeAnnotation,
    ann ∈ fst (scan_try "src/a.ts"
                 (Some (Text (text_of ["// @agent: foo"; "// @agent: bar"]))))
    /\ ann_file_path ann = "src/a.ts"
    /\ line_number ann = 1%nat
    /\ ann_agent_name ann = "foo".
Proof.
  eexists. split; [vm_compute; apply elem_of_cons; left; reflexivity|].
  split; [|split; reflexivity].
  apply (proj2 (X9_one_annotation_per_file "src/a.ts"
                  (Some (Text (text_of ["// @agent: foo";
                                        "// @agent: bar"]))))).
  vm_compute. apply elem_of_cons. left. reflexivity.
Defined.

(** X11: the agent name of an annotation is never empty and holds no
    white space. *)
Theorem X11_agent_name_shape (path : string) (f : option file)
    (ann : CodeAnnotation) :
  ann ∈ fst (scan_try path f) ->
  ann_agent_name ann <> ""
  /\ string_forallb non_space (ann_agent_name ann) = true.
Proof.
  intros Hin.
  destruct (scan_try_shape path f)
    as [Hnil|(content & before & line & after & ann0 & _ & Hr & _ & _ & Ha & _)].
  - rewrite Hnil in Hin. now apply elem_of_nil in Hin.
  - rewrite Hr in Hin. apply list_elem_of_singleton in Hin as ->.
    unfold anchor in Ha. destruct (contains "@agent:" line); [|discriminate].
    now apply re_search_shape in Ha.
Qed.

Lemma X11_agent_name_shape_witness :
  exists ann : CodeAnnotation,
    ann ∈ fst (scan_try "src/a.ts" (Some (Text (text_of bare_anchor_lines))))
    /\ ann_agent_name ann = "foo"
    /\ string_forallb non_space (ann_agent_name ann) = true.
Proof.
  eexists. split; [vm_compute; apply elem_of_cons; left; reflexivity|].
  split; [reflexivity|].
  apply (X11_agent_name_shape "src/a.ts"
           (Some (Text (text_of bare_anchor_lines)))).
  vm_compute. apply elem_of_cons. left. reflexivity.
Defined.

Lemma look_ahead_lines_raises window : forall fields,
  markers_match window = false ->
  look_ahead_lines window fields = Raise AttributeError.
Proof.
  induction window as [|line window IH]; intros [[t k] n] Hm;
    [discriminate|].
  cbn [markers_match forallb companions] in Hm.
  cbn [look_ahead_lines look_ahead_line]. unfold companion.
  destruct (contains "@timestamp:" line);
    destruct (re_search "@timestamp:" any_char line);
    destruct (contains "@task:" line);
    destruct (re_search "@task:" any_char line);
    destruct (contains "@notes:" line);
    destruct (re_search "@notes:" any_char line);
    simpl in Hm; try reflexivity; now apply IH.
Qed.

(** X10: a companion marker with nothing to capture after it loses the
    annotation.  When, on one of the 5 lines after the first anchor, a
    marker is present but its pattern does not match, the scan returns no
    annotation and prints the error of the failed match. *)
Theorem X10_marker_without_text_loses_annotation (w : World)
    (path content : string) (before after : list string)
    (line name : string) :
  source_files w !! path = Some (Text content) ->
  readlines content = (before ++ line :: after)%list ->
  no_anchor before = true ->
  anchor line = Some name ->
  markers_match (take 5 after) = false ->
  scan_code_annotations path w
  = (Return [], snd (print (ErrorScanning path AttributeError) w)).
Proof.
  intros Hfile Hlines Hno Hanchor Hbad.
  rewrite scan_code_annotations_run. unfold scan_result, scan_errors.
  rewrite Hfile.
  rewrite (scan_try_first_anchor _ _ _ _ _ _ Hlines Hno Hanchor).
  now rewrite (look_ahead_lines_raises _ _ Hbad).
Qed.

Lemma X10_marker_without_text_loses_annotation_witness :
  scan_code_annotations "src/c.ts" empty_marker_world
  = (Return [],
     snd (print (ErrorScanning "src/c.ts" AttributeError) empty_marker_world)).
Proof.
  apply (X10_marker_without_text_loses_annotation empty_marker_world
           "src/c.ts" (text_of empty_marker_lines) []
           (drop 1 (readlines (text_of empty_marker_lines)))
           ("// @agent: foo" ++ String newline "") "foo");
    vm_compute; reflexivity.
Defined.

(** * Further properties of the relevance lookup and the task status *)




Lemma prefix_take (p s : string) :
  String.prefix p s = true <-> string_take (String.length p) s = p.
Proof.
  revert s. induction p as [|a p IH]; intros s.
  - destruct s; simpl; tauto.
  - destruct s as [|b s]; simpl; [split; discriminate|].
    destruct (ascii_dec a b) as [->|Hne].
    + rewrite IH. split; [now intros ->|now intros [= ->]].
    + split; [discriminate|]. intros [= Hb _]. now elim Hne.
Qed.

Lemma length_string_take (n : nat) (s : string) :
  (n <= String.length s)%nat -> String.length (string_take n s) = n.
Proof.
  revert s. induction n as [|n IH]; intros s Hn; [reflexivity|].
  destruct s as [|c s]; simpl in *; [lia|]. rewrite IH; lia.
Qed.

(** X15: the day test of [get_relevant_context] compares prefixes.  A
    message passes when its timestamp starts with the first 10 characters
    of the annotation's timestamp (with the whole of it when it is
    shorter); for an annotation timestamp of at least 10 characters this is
    equality of the first 10 characters of the two timestamps. *)
Theorem X15_day_test_compares_prefixes (ann : CodeAnnotation) (msg : Message) :
  let day := string_take 10 (ann_timestamp ann) in
  (same_day ann msg = true
   <-> string_take (String.length day) (get_timestamp msg) = day)
  /\ ((10 <= String.length (ann_timestamp ann))%nat ->
      (same_day ann msg = true
       <-> string_take 10 (get_timestamp msg)
           = string_take 10 (ann_timestamp ann))).
Proof.
  intros day. assert (Hiff : same_day ann msg = true
    <-> string_take (String.length day) (get_timestamp msg) = day)
    by apply prefix_take.
  split; [exact Hiff|]. intros Hlen. rewrite Hiff. subst day.
  now rewrite length_string_take.
Qed.

Lemma X15_day_test_compares_prefixes_witness :
  same_day old_annotation
    {| msg_role := "user"; msg_content := "first";
       msg_timestamp := Some "2025-01-01T10:00:02"; msg_tokens := Some 10 |}
  = true.
Proof.
  apply (proj2 (X15_day_test_compares_prefixes old_annotation
                  {| msg_role := "user"; msg_content := "first";
                     msg_timestamp := Some "2025-01-01T10:00:02";
                     msg_tokens := Some 10 |})).
  - simpl. lia.
  - reflexivity.
Defined.







(** * The fields the context store never changes *)

(** [c'] has the name, the timestamp, the task file and the limit of [c]. *)
Lemma after_add_fields c role content tokens now :
  agent_name (after_add c role content tokens now) = agent_name c
  /\ timestamp (after_add c role content tokens now) = timestamp c
  /\ task_file (after_add c role content tokens now) = task_file c
  /\ max_tokens (after_add c role content tokens now) = max_tokens c.
Proof.
  unfold after_add. destruct (bool_decide _); [|now repeat split].
  apply (trim_loop_fields _ (appended c role content tokens now)).
Qed.

Lemma run_op_other_agents o w name :
  name <> op_name o -> agents (snd (run_op o w)) !! name = agents w !! name.
Proof.
  intros Hne.
  destruct (run_op_cases o w) as [->|(c' & Hst & _)]; [reflexivity|].
  unfold stores in Hst. injection Hst as _ Hag _.
  rewrite Hag. now rewrite lookup_insert_ne by congruence.
Qed.

Lemma run_op_keeps_fields o w name c :
  registers name o = false ->
  agents w !! name = Some c ->
  exists c',
    agents (snd (run_op o w)) !! name = Some c'
    /\ agent_name c' = agent_name c /\ timestamp c' = timestamp c
    /\ task_file c' = task_file c /\ max_tokens c' = max_tokens c.
Proof.
  intros Hreg Hc.
  destruct (decide (name = op_name o)) as [Heq|Hne].
  - destruct o as [n task now|n role content tokens now|n];
      cbn [op_name registers] in *; subst n; unfold run_op.
    + apply bool_decide_eq_false in Hreg. now elim Hreg.
    + destruct (add_message_run _ role content tokens now _ _ Hc)
        as (w' & -> & Hst).
      apply stores_lookup in Hst as [Hag _].
      eexists. split; [exact Hag|]. apply after_add_fields.
    + destruct (_trim_context_run _ _ _ Hc) as (w' & -> & Hst).
      apply stores_lookup in Hst as [Hag _].
      eexists. split; [exact Hag|]. apply trim_loop_fields.
  - exists c. rewrite (run_op_other_agents o w name Hne). now repeat split.
Qed.

(** X12: once an agent is registered, no later [add_message] or
    [_trim_context] call removes it from the registry or changes its name,
    its task file, its limit of 200000 or its timestamp: the timestamp of a
    record is the time of registration, not of the last message. *)
Theorem X12_registration_fields_are_fixed (w : World)
    (name task now : string) (ops : list op) :
  forallb (fun o => negb (registers name o)) ops = true ->
  exists c : AgentContext,
    agents (exec ops (snd (register_agent name task now w))) !! name = Some c
    /\ agent_name c = name /\ timestamp c = now
    /\ task_file c = task /\ max_tokens c = 200000.
Proof.
  intros Hops.
  assert (Hgen : forall c0 w0,
    agents w0 !! name = Some c0 ->
    exists c, agents (exec ops w0) !! name = Some c
      /\ agent_name c = agent_name c0 /\ timestamp c = timestamp c0
      /\ task_file c = task_file c0 /\ max_tokens c = max_tokens c0).
  { induction ops as [|o ops IH]; intros c0 w0 Hc0.
    - exists c0. now repeat split.
    - simpl in Hops. apply andb_true_iff in Hops as [Ho Hops].
      apply negb_true_iff in Ho.
      destruct (run_op_keeps_fields o w0 name c0 Ho Hc0)
        as (c1 & Hc1 & Hn & Ht & Hf & Hm).
      destruct (IH Hops c1 _ Hc1) as (c & Hc & Hn' & Ht' & Hf' & Hm').
      exists c. simpl. split; [exact Hc|]. repeat split; congruence. }
  destruct (register_agent_run name task now w) as (w1 & -> & Hst).
  apply stores_lookup in Hst as [Hag _].
  exact (Hgen _ _ Hag).
Qed.

Lemma X12_registration_fields_are_fixed_witness :
  exists c : AgentContext,
    agents (exec (tail example_setup ++ [example_last])
              (snd (register_agent "agent-1" "task-1.md"
                      "2025-01-01T10:00:00" empty_world))) !! "agent-1"
    = Some c
    /\ agent_name c = "agent-1" /\ timestamp c = "2025-01-01T10:00:00"
    /\ task_file c = "task-1.md" /\ max_tokens c = 200000.
Proof.
  apply (X12_registration_fields_are_fixed empty_world "agent-1" "task-1.md"
           "2025-01-01T10:00:00" (tail example_setup ++ [example_last])).
  vm_compute. reflexivity.
Defined.
